(** * transport-backend: the shipment workflow, the driver handlers and the
    bill sequence hook, embedded in Rocq

    Sources embedded here:
    - [controller/shipmentController.js]: [createShipment], [getAllShipments],
      [getShipmentById], [updateShipment], [deleteShipment];
    - [controller/driverController.js]: [createDriver], [getDriverById],
      [updateDriverById], [deleteDriverById], [getAllDrivers],
      [getAvailableDrivers];
    - the Bill model: [billSchema.pre("save")].

    Request bodies are JSON objects whose fields are JavaScript values; the
    document store is a record of collections; a handler is a computation
    over the store that also records the database calls it awaits. *)

From stdpp Require Import base strings list gmap pretty.
From Stdlib Require Import ZArith Lia Ascii Sorted.

Local Open Scope string_scope.
Local Open Scope Z_scope.

(** ** JavaScript values *)

Module JS.

(** The values a parsed JSON body can hold at a scalar field. Numbers are the
    integer-valued ones in the exactly representable range; objects, arrays
    and fractional numbers are outside the embedding. *)
Inductive value : Type :=
  | VUndef
  | VNull
  | VBool (b : bool)
  | VNum (n : Z)
  | VStr (s : string).

(** A stored or cast number: an integer, or some number that is no integer. *)
Inductive num : Type :=
  | Int (n : Z)
  | NonInt.

Inductive exn : Type :=
  | CastError
  | ValidationError
  | TypeError.

(** [if (v)] *)
Definition truthy (v : value) : bool :=
  match v with
  | VUndef | VNull => false
  | VBool b => b
  | VNum n => negb (n =? 0)
  | VStr s => negb (String.eqb s "")
  end.

Definition is_undefined (v : value) : bool :=
  match v with VUndef => true | _ => false end.

(** [String(n)] for an integer in range is its decimal numeral. *)
Definition String_of_Z (n : Z) : string := pretty n.

Definition is_digit (c : ascii) : bool :=
  let n := nat_of_ascii c in (48 <=? n)%nat && (n <=? 57)%nat.

Definition digit_val (c : ascii) : Z := Z.of_nat (nat_of_ascii c) - 48.

Definition digits_val (l : list ascii) : Z :=
  fold_left (fun acc c => 10 * acc + digit_val c) l 0.

Fixpoint span_digits (l : list ascii) : list ascii * list ascii :=
  match l with
  | c :: r =>
      if is_digit c then let '(d, rest) := span_digits r in (c :: d, rest)
      else ([], l)
  | [] => ([], [])
  end.

Definition strip_sign (l : list ascii) : bool * list ascii :=
  match l with
  | "+"%char :: r => (false, r)
  | "-"%char :: r => (true, r)
  | _ => (false, l)
  end.

(** The decimal literals [[+-]?([0-9]*[.])?[0-9]+]: sign, integer digits and
    the digits after the point when there is one. *)
Definition decimal_literal (s : string)
  : option (bool * list ascii * option (list ascii)) :=
  let '(neg, r) := strip_sign (String.list_ascii_of_string s) in
  let '(d1, rest) := span_digits r in
  match rest with
  | [] => if d1 is [] then None else Some (neg, d1, None)
  | "."%char :: r2 =>
      if r2 is [] then None
      else if forallb is_digit r2 then Some (neg, d1, Some r2) else None
  | _ => None
  end.

Definition is_zero_digit (c : ascii) : bool := Ascii.eqb c "0"%char.

(** [Number(s)] on a decimal literal. *)
Definition Number_decimal (neg : bool) (d1 : list ascii)
    (frac : option (list ascii)) : num :=
  let whole := Int (if neg then - digits_val d1 else digits_val d1) in
  match frac with
  | None => whole
  | Some d2 => if forallb is_zero_digit d2 then whole else NonInt
  end.

End JS.

Export JS.

(** ** validator.js predicates on strings *)

Module Validator.

(** [isNumeric(str)]: [/^[+-]?([0-9]*[.])?[0-9]+$/]. *)
Definition isNumeric (s : string) : bool :=
  if decimal_literal s is Some _ then true else false.

(** [isInt(str)] called without [allow_leading_zeroes: false], as the
    handlers call it: [/^[-+]?[0-9]+$/], an optional sign and one digit or
    more, leading zeroes included. *)
Definition isInt (s : string) : bool :=
  let '(_, r) := strip_sign (String.list_ascii_of_string s) in
  (if r is [] then false else true) && forallb is_digit r.

(** [isInt(str, { min: 0 })]: the same pattern, and [str >= 0] with the
    string read as a number. *)
Definition isInt_min0 (s : string) : bool :=
  isInt s &&
  (let '(neg, r) := strip_sign (String.list_ascii_of_string s) in
   0 <=? (if neg then - digits_val r else digits_val r)).

(** [isEmpty(str)] *)
Definition isEmpty (s : string) : bool := String.eqb s "".

(** [isIn(str, options)] *)
Definition isIn (options : list string) (s : string) : bool :=
  existsb (String.eqb s) options.

Definition is_hex_digit (c : ascii) : bool :=
  let n := nat_of_ascii c in
  is_digit c || ((65 <=? n)%nat && (n <=? 70)%nat)
             || ((97 <=? n)%nat && (n <=? 102)%nat).

(** [isHexadecimal(str)]: an optional prefix 0x or 0h in either case, then
    one hexadecimal digit or more. *)
Definition isHexadecimal (s : string) : bool :=
  let l := String.list_ascii_of_string s in
  let digits :=
    match l with
    | "0"%char :: c :: r =>
        if existsb (Ascii.eqb c) ["x"; "X"; "h"; "H"]%char then r else l
    | _ => l
    end in
  (if digits is [] then false else true) && forallb is_hex_digit digits.

(** [isMongoId(str)]: [isHexadecimal(str) && str.length === 24]. *)
Definition isMongoId (s : string) : bool :=
  isHexadecimal s && (length (String.list_ascii_of_string s) =? 24)%nat.

End Validator.

(** ** express-validator chains *)

Module ExpressValidator.

(** One entry of [validationResult(req).array()]. *)
Record FieldError : Type := { path : string; msg : string }.

(** The string a standard validator sees: empty for [undefined] and [null],
    [String(value)] otherwise. *)
Definition toString (v : value) : string :=
  match v with
  | VUndef | VNull => ""
  | VBool true => "true"
  | VBool false => "false"
  | VNum n => String_of_Z n
  | VStr s => s
  end.

Definition standard (p : string -> bool) (v : value) : bool := p (toString v).

(** [.isString()] looks at the type of the value itself. *)
Definition isString (v : value) : bool :=
  match v with VStr _ => true | _ => false end.

Definition notEmpty : value -> bool :=
  standard (fun s => negb (Validator.isEmpty s)).
Definition isNumeric : value -> bool := standard Validator.isNumeric.
Definition isInt : value -> bool := standard Validator.isInt.
Definition isInt_min0 : value -> bool := standard Validator.isInt_min0.
Definition isMongoId : value -> bool := standard Validator.isMongoId.
Definition isIn (options : list string) : value -> bool :=
  standard (Validator.isIn options).

(** The message of a validator that no [.withMessage] follows. *)
Definition Invalid_value : string := "Invalid value".

(** A validator of a chain with the message it reports. *)
Definition check : Type := (value -> bool) * string.

(** [await body(field)...run(req)]: every validator of the chain runs and
    each failing one adds an entry; a chain marked [.optional()] is skipped
    when the field is [undefined]. *)
Definition run (optional : bool) (field : string) (chain : list check)
    (v : value) : list FieldError :=
  if optional && is_undefined v then []
  else flat_map
         (fun c : check => if c.1 v then [] else [{| path := field; msg := c.2 |}])
         chain.

End ExpressValidator.

(** ** Documents *)

(** Modelled from the spec: the Truck, Driver, Client and Shipment schemas
    ([models/*.js] are not among the sources). Each document carries the
    numeric id and the fields the controllers read or write; the remaining
    fields of a Truck, Driver or Client are kept as an association list. *)

Module Truck.
Record t : Type := mk {
  truckId : Z;
  availabilityStatus : string;
  fields : list (string * value)
}.
Definition set_availabilityStatus (s : string) (d : t) : t :=
  {| truckId := truckId d; availabilityStatus := s; fields := fields d |}.
End Truck.

Module Driver.
Record t : Type := mk {
  driverId : Z;
  availabilityStatus : string;
  assignedTruck : option num;
  fields : list (string * value)
}.
Definition set_availabilityStatus (s : string) (d : t) : t :=
  {| driverId := driverId d; availabilityStatus := s;
     assignedTruck := assignedTruck d; fields := fields d |}.
Definition set_assignedTruck (a : option num) (d : t) : t :=
  {| driverId := driverId d; availabilityStatus := availabilityStatus d;
     assignedTruck := a; fields := fields d |}.
End Driver.

Module Client.
Record t : Type := mk {
  clientId : Z;
  clientName : option string;
  fields : list (string * value)
}.
End Client.

Module Shipment.
(** Strings, dates and the weight are kept as the text they were given as;
    references are the numbers the schema casts them to. *)
Record t : Type := mk {
  shipmentId : Z;
  shipmentName : option string;
  clientId : option num;
  pickupLocation : option string;
  deliveryLocation : option string;
  cargoType : option string;
  cargoWeight : option string;
  specialInstructions : option string;
  departureDate : option string;
  arrivalDate : option string;
  status : option string;
  truckId : option num;
  driverId : option num
}.
Definition set_shipmentId (n : Z) (d : t) : t :=
  {| shipmentId := n; shipmentName := shipmentName d; clientId := clientId d;
     pickupLocation := pickupLocation d; deliveryLocation := deliveryLocation d;
     cargoType := cargoType d; cargoWeight := cargoWeight d;
     specialInstructions := specialInstructions d;
     departureDate := departureDate d; arrivalDate := arrivalDate d;
     status := status d; truckId := truckId d; driverId := driverId d |}.
End Shipment.

Module Bill.
(** [billSchema]: the id, Mongoose's [isNew] flag and the other paths. *)
Record t : Type := mk {
  billId : Z;
  isNew : bool;
  fields : list (string * value)
}.
Definition set_billId (n : Z) (d : t) : t :=
  {| billId := n; isNew := isNew d; fields := fields d |}.
End Bill.

(** ** Request bodies *)

Module Req.
(** [req.body] of the shipment routes. *)
Record t : Type := mk {
  shipmentName : value;
  clientId : value;
  pickupLocation : value;
  deliveryLocation : value;
  cargoType : value;
  cargoWeight : value;
  specialInstructions : value;
  departureDate : value;
  arrivalDate : value;
  status : value;
  truckId : value;
  driverId : value
}.
End Req.

Module DriverReq.
(** [req.body] of the driver routes. *)
Record t : Type := mk {
  name : value;
  licenseNumber : value;
  phoneNumber : value;
  address : value;
  salary : value;
  experience : value;
  availabilityStatus : value;
  assignedTruck : value
}.
End DriverReq.

(** ** What the embedding takes from outside the sources *)

(** validator.js predicates that depend on floating point or on the full
    date grammar, [Number] on strings that are not decimal literals, and
    the declarations of [models/Shipment.js] and [models/Driver.js]. *)
Class External : Type := {
  (** [isFloat(str, { gt: 0 })] *)
  isFloat_gt0 : string -> bool;
  (** [isISO8601(str)] *)
  isISO8601 : string -> bool;
  (** [Number(str)] for a string that is not a decimal literal; [None] is NaN *)
  Number_other : string -> option num;
  (** whether Mongoose drops an [undefined] value from a [$set] (6 and
      later) or writes it as null (5) *)
  omitUndefined : bool;
  (** the validators of the Shipment schema, run by [save()] *)
  shipmentSchema : Shipment.t -> bool;
  (** the update of a found Shipment by [findOneAndUpdate(_, req.body,
      { new: true, runValidators: true })]; [None] when it is rejected *)
  shipmentUpdate : Req.t -> Shipment.t -> option Shipment.t;
  (** the same for a found Driver *)
  driverUpdate : DriverReq.t -> Driver.t -> option Driver.t
}.

(** ** Mongoose casts *)

Section Casts.
Context `{External}.

(** [Number(str)] *)
Definition Number (s : string) : option num :=
  match decimal_literal s with
  | Some (neg, d1, frac) => Some (Number_decimal neg d1 frac)
  | None => Number_other s
  end.

(** The cast of a value to a [Number] path: [null] and [undefined] pass
    through, the empty string becomes [null], NaN raises a CastError. *)
Definition castNumber (v : value) : exn + option num :=
  match v with
  | VUndef | VNull => inr None
  | VBool b => inr (Some (Int (if b then 1 else 0)))
  | VNum n => inr (Some (Int n))
  | VStr s =>
      if String.eqb s "" then inr None
      else match Number s with
           | Some x => inr (Some x)
           | None => inl CastError
           end
  end.

(** The cast of a value to a [String] path. *)
Definition castString (v : value) : option string :=
  match v with
  | VUndef | VNull => None
  | _ => Some (ExpressValidator.toString v)
  end.

(** The [.toDate()] sanitizer followed by the cast to a [Date] path: the
    instant is kept as the text that denotes it, [null] for any other text. *)
Definition toDate (v : value) : option string :=
  let s := ExpressValidator.toString v in
  if isISO8601 s then Some s else None.

End Casts.

(** ** The store, responses and handler computations *)

Record Store : Type := {
  trucks : list Truck.t;
  drivers : list Driver.t;
  clients : list Client.t;
  shipments : list Shipment.t;
  (** the Counter collection: [_id] to [sequence] *)
  counters : gmap string Z
}.

Definition with_trucks (l : list Truck.t) (s : Store) : Store :=
  {| trucks := l; drivers := drivers s; clients := clients s;
     shipments := shipments s; counters := counters s |}.
Definition with_drivers (l : list Driver.t) (s : Store) : Store :=
  {| trucks := trucks s; drivers := l; clients := clients s;
     shipments := shipments s; counters := counters s |}.
Definition with_shipments (l : list Shipment.t) (s : Store) : Store :=
  {| trucks := trucks s; drivers := drivers s; clients := clients s;
     shipments := l; counters := counters s |}.
Definition with_counters (c : gmap string Z) (s : Store) : Store :=
  {| trucks := trucks s; drivers := drivers s; clients := clients s;
     shipments := shipments s; counters := c |}.

Inductive Collection : Type := Trucks | Drivers | Clients | Shipments.

(** A database call a handler awaits, with the cast filter it carries. *)
Inductive Event : Type :=
  | EvFindOne (c : Collection) (q : option num)
  | EvUpdateOne (c : Collection) (q : option num)
  | EvFindOneAndUpdate (c : Collection) (q : option num)
  | EvFindOneAndDelete (c : Collection) (q : option num)
  | EvInsert (c : Collection)
  | EvCounter (key : string).

Record World : Type := { store : Store; trace : list Event }.

(** [{ ...shipment.toObject(), truck, driver, clientName }] *)
Record Populated : Type := {
  p_shipment : Shipment.t;
  p_truck : option Truck.t;
  p_driver : option Driver.t;
  p_clientName : option string
}.

Inductive Body : Type :=
  (** [{ errors: errors.array() }] *)
  | Errors (errors : list ExpressValidator.FieldError)
  (** [{ success: false, message }] *)
  | Failure (message : string)
  (** [{ error }] *)
  | Error (error : string)
  (** [{ message }] *)
  | Message (message : string)
  (** [{ message, shipment }] *)
  | WithShipment (message : string) (shipment : Shipment.t)
  (** the array that [getAllShipments] sends *)
  | ShipmentList (l : list Populated)
  (** [{ ...shipment.toObject(), truck, driver }], with the message of an update *)
  | ShipmentView (message : option string) (shipment : Shipment.t)
      (truck : option Truck.t) (driver : option Driver.t)
  (** [{ ...driver.toObject(), truck }], with the message of an update *)
  | DriverView (message : option string) (driver : Driver.t)
      (truck : option Truck.t).

(** [res.status(code).json(body)] *)
Record Response : Type := json { status : Z; body : Body }.

(** How a block of statements ends: it falls through with a value, it
    executes [return res...], or it throws. *)
Inductive result (A : Type) : Type :=
  | Val (a : A)
  | Ret (r : Response)
  | Exn (e : exn).
Arguments Val {A} a.
Arguments Ret {A} r.
Arguments Exn {A} e.

Definition M (A : Type) : Type := World -> World * result A.

Definition ret {A} (a : A) : M A := fun w => (w, Val a).
Definition return_ {A} (r : Response) : M A := fun w => (w, Ret r).
Definition throw {A} (e : exn) : M A := fun w => (w, Exn e).
Definition bind {A B} (m : M A) (k : A -> M B) : M B :=
  fun w =>
    match m w with
    | (w', Val a) => k a w'
    | (w', Ret r) => (w', Ret r)
    | (w', Exn e) => (w', Exn e)
    end.

Notation "'do' x <- m ; k" := (bind m (fun x => k))
  (at level 10, x name, m at level 100, k at level 200).
Notation "m ;; k" := (bind m (fun _ => k))
  (at level 100, k at level 200, right associativity).

(** [try { body } catch (error) { handler }] inside a block *)
Definition catch {A} (body : M A) (handler : exn -> M A) : M A :=
  fun w =>
    match body w with
    | (w', Exn e) => handler e w'
    | r => r
    end.

(** A request handler whose last statement is a [try]/[catch] that answers
    in every branch. *)
Definition try_catch (body : M Response) (handler : exn -> Response)
  : World -> World * Response :=
  fun w =>
    match body w with
    | (w', Val r) | (w', Ret r) => (w', r)
    | (w', Exn e) => (w', handler e)
    end.

Definition log (e : Event) : M unit :=
  fun w => ({| store := store w; trace := trace w ++ [e] |}, Val tt).
Definition get_store : M Store := fun w => (w, Val (store w)).
Definition modify_store (f : Store -> Store) : M unit :=
  fun w => ({| store := f (store w); trace := trace w |}, Val tt).

(** A cast made while a query or an update is built. *)
Definition cast {A} (c : exn + A) : M A :=
  match c with inl e => throw e | inr a => ret a end.

(** Reading a property of what a query returned: a TypeError on [null]. *)
Definition member {A B} (o : option A) (f : A -> B) : M B :=
  match o with Some a => ret (f a) | None => throw TypeError end.

(** ** Queries on a collection *)

(** A numeric id path against a cast filter value. Every stored id is an
    integer, so [null] and a fractional number select nothing. *)
Definition id_matches (q : option num) (id : Z) : bool :=
  match q with
  | Some (Int n) => id =? n
  | _ => false
  end.

Fixpoint find_first {A} (p : A -> bool) (l : list A) : option A :=
  match l with
  | [] => None
  | x :: r => if p x then Some x else find_first p r
  end.

Fixpoint update_first {A} (p : A -> bool) (f : A -> A) (l : list A) : list A :=
  match l with
  | [] => []
  | x :: r => if p x then f x :: r else x :: update_first p f r
  end.

Fixpoint remove_first {A} (p : A -> bool) (l : list A) : list A :=
  match l with
  | [] => []
  | x :: r => if p x then r else x :: remove_first p r
  end.

Definition Truck_findOne (q : option num) : M (option Truck.t) :=
  log (EvFindOne Trucks q) ;;
  do s <- get_store ;
  ret (find_first (fun d => id_matches q (Truck.truckId d)) (trucks s)).

Definition Driver_findOne (q : option num) : M (option Driver.t) :=
  log (EvFindOne Drivers q) ;;
  do s <- get_store ;
  ret (find_first (fun d => id_matches q (Driver.driverId d)) (drivers s)).

Definition Client_findOne (q : option num) : M (option Client.t) :=
  log (EvFindOne Clients q) ;;
  do s <- get_store ;
  ret (find_first (fun d => id_matches q (Client.clientId d)) (clients s)).

Definition Shipment_findOne (q : option num) : M (option Shipment.t) :=
  log (EvFindOne Shipments q) ;;
  do s <- get_store ;
  ret (find_first (fun d => id_matches q (Shipment.shipmentId d)) (shipments s)).

(** [Truck.updateOne(filter, { $set })]: the first match is updated. *)
Definition Truck_updateOne (q : option num) (set : Truck.t -> Truck.t) : M unit :=
  log (EvUpdateOne Trucks q) ;;
  modify_store (fun s =>
    with_trucks
      (update_first (fun d => id_matches q (Truck.truckId d)) set (trucks s)) s).

Definition Driver_updateOne (q : option num) (set : Driver.t -> Driver.t) : M unit :=
  log (EvUpdateOne Drivers q) ;;
  modify_store (fun s =>
    with_drivers
      (update_first (fun d => id_matches q (Driver.driverId d)) set (drivers s)) s).

(** [Counter.findOneAndUpdate({ _id: key }, { $inc: { sequence: 1 } },
    { new: true, upsert: true })], then [.sequence] of the document it
    returns: an absent counter is created and incremented from nothing. *)
Definition Counter_next (key : string) : M Z :=
  log (EvCounter key) ;;
  do s <- get_store ;
  let sequence := default 0 (counters s !! key) + 1 in
  modify_store (with_counters (<[key := sequence]> (counters s))) ;;
  ret sequence.

(** ** The Bill model: [billSchema.pre("save")] *)

(** The hook receives the document as [this]; [next(error)] hands the
    error on, [next()] continues the save with the document. *)
Definition bill_pre_save (this : Bill.t) : M Bill.t :=
  if Bill.isNew this then
    catch
      (do sequence <- Counter_next "billId" ;
       ret (Bill.set_billId sequence this))
      (fun error => throw error)
  else ret this.

(** [n] successive requests for the next value of one key, in order. *)
Fixpoint Counter_calls (key : string) (n : nat) : M (list Z) :=
  match n with
  | O => ret []
  | S n' =>
      do x <- Counter_next key ;
      do xs <- Counter_calls key n' ;
      ret (x :: xs)
  end.

(** ** The Shipment model *)

Section Models.
Context `{External}.

(** [new Shipment({ shipmentId: 0, shipmentName, clientId, ... })]: every
    path is cast; [None] when a reference is not a number, which [save()]
    reports. The weight has passed [isFloat] when the constructor runs and
    is kept as its text. *)
Definition Shipment_new (shipmentName clientId pickupLocation deliveryLocation
    cargoType cargoWeight specialInstructions departureDate arrivalDate
    status truckId driverId : value) : option Shipment.t :=
  match castNumber clientId, castNumber truckId, castNumber driverId with
  | inr client, inr truck, inr driver =>
      Some {| Shipment.shipmentId := 0;
              Shipment.shipmentName := castString shipmentName;
              Shipment.clientId := client;
              Shipment.pickupLocation := castString pickupLocation;
              Shipment.deliveryLocation := castString deliveryLocation;
              Shipment.cargoType := castString cargoType;
              Shipment.cargoWeight := castString cargoWeight;
              Shipment.specialInstructions := castString specialInstructions;
              Shipment.departureDate := toDate departureDate;
              Shipment.arrivalDate := toDate arrivalDate;
              Shipment.status := castString status;
              Shipment.truckId := truck;
              Shipment.driverId := driver |}
  | _, _, _ => None
  end.

(** Modelled from the spec: [shipment.save()] of [models/Shipment.js], which
    is not among the sources. The document is validated against the schema,
    the pre-save hook replaces the placeholder id by the next value of the
    sequence (as the Bill hook does), and the document is inserted. *)
Definition Shipment_save (doc : option Shipment.t) : M Shipment.t :=
  match doc with
  | None => throw ValidationError
  | Some d =>
      if negb (shipmentSchema d) then throw ValidationError
      else
        do sequence <- Counter_next "shipmentId" ;
        let shipment := Shipment.set_shipmentId sequence d in
        log (EvInsert Shipments) ;;
        modify_store (fun s => with_shipments (shipments s ++ [shipment]) s) ;;
        ret shipment
  end.

(** [Shipment.findOneAndUpdate({ shipmentId: id }, req.body, { new: true,
    runValidators: true })]: [null] when nothing matches; otherwise the
    first match is replaced by its update, which is returned. *)
Definition Shipment_findOneAndUpdate (q : option num) (update : Req.t)
  : M (option Shipment.t) :=
  log (EvFindOneAndUpdate Shipments q) ;;
  do s <- get_store ;
  let p := fun d => id_matches q (Shipment.shipmentId d) in
  match find_first p (shipments s) with
  | None => ret None
  | Some d =>
      match shipmentUpdate update d with
      | None => throw ValidationError
      | Some d' =>
          modify_store (with_shipments (update_first p (fun _ => d') (shipments s))) ;;
          ret (Some d')
      end
  end.

Definition Shipment_findOneAndDelete (q : option num) : M (option Shipment.t) :=
  log (EvFindOneAndDelete Shipments q) ;;
  do s <- get_store ;
  let p := fun d => id_matches q (Shipment.shipmentId d) in
  modify_store (with_shipments (remove_first p (shipments s))) ;;
  ret (find_first p (shipments s)).

Definition Driver_findOneAndUpdate (q : option num) (update : DriverReq.t)
  : M (option Driver.t) :=
  log (EvFindOneAndUpdate Drivers q) ;;
  do s <- get_store ;
  let p := fun d => id_matches q (Driver.driverId d) in
  match find_first p (drivers s) with
  | None => ret None
  | Some d =>
      match driverUpdate update d with
      | None => throw ValidationError
      | Some d' =>
          modify_store (with_drivers (update_first p (fun _ => d') (drivers s))) ;;
          ret (Some d')
      end
  end.

Definition Driver_findOneAndDelete (q : option num) : M (option Driver.t) :=
  log (EvFindOneAndDelete Drivers q) ;;
  do s <- get_store ;
  let p := fun d => id_matches q (Driver.driverId d) in
  modify_store (with_drivers (remove_first p (drivers s))) ;;
  ret (find_first p (drivers s)).

End Models.

(** The answer of every [catch] block. *)
Definition internal_error : Response :=
  json 500 (Error "An internal server error occurred.").

(** ** controller/shipmentController.js *)

Module ShipmentController.
Section Handlers.
Context `{External}.
Import ExpressValidator.

(** The ten chains run at the top of [createShipment], in order. *)
Definition createShipment_errors (b : Req.t) : list FieldError :=
  run false "clientId"
    [(isNumeric, "Client ID must be an integer.")] (Req.clientId b)
  ++ run false "shipmentName"
    [(isString, "Shipment Name is required.")] (Req.shipmentName b)
  ++ run false "pickupLocation"
    [(isString, Invalid_value); (notEmpty, "Pickup location is required.")]
    (Req.pickupLocation b)
  ++ run false "deliveryLocation"
    [(isString, Invalid_value); (notEmpty, "Delivery location is required.")]
    (Req.deliveryLocation b)
  ++ run false "cargoType"
    [(isString, Invalid_value); (notEmpty, "Cargo type is required.")]
    (Req.cargoType b)
  ++ run false "cargoWeight"
    [(standard isFloat_gt0, "Cargo weight must be a positive number.")]
    (Req.cargoWeight b)
  ++ run false "departureDate"
    [(standard isISO8601, "Departure date must be a valid date.")]
    (Req.departureDate b)
  ++ run false "arrivalDate"
    [(standard isISO8601, "Arrival date must be a valid date.")]
    (Req.arrivalDate b)
  ++ run true "truckId"
    [(isNumeric, "Truck ID must be a valid MongoDB ObjectId.")] (Req.truckId b)
  ++ run true "driverId"
    [(isNumeric, "Driver ID must be a valid MongoDB ObjectId.")] (Req.driverId b).

(** The value a [$set] carries for a path, or [None] when the key is
    dropped from the update. *)
Definition set_value (v : value) : M (option (option num)) :=
  if is_undefined v then ret (if omitUndefined then None else Some None)
  else do n <- cast (castNumber v) ; ret (Some n).

Definition createShipment (b : Req.t) : World -> World * Response :=
  let errors := createShipment_errors b in
  if negb (if errors is [] then true else false) then
    fun w => (w, json 400 (Errors errors))
  else
    let shipmentName := Req.shipmentName b in
    let clientId := Req.clientId b in
    let pickupLocation := Req.pickupLocation b in
    let deliveryLocation := Req.deliveryLocation b in
    let cargoType := Req.cargoType b in
    let cargoWeight := Req.cargoWeight b in
    let specialInstructions := Req.specialInstructions b in
    let departureDate := Req.departureDate b in
    let arrivalDate := Req.arrivalDate b in
    let status :=
      if is_undefined (Req.status b) then VStr "pending" else Req.status b in
    let truckId := Req.truckId b in
    let driverId := Req.driverId b in
    try_catch
      ((if truthy truckId then
          do q <- cast (castNumber truckId) ;
          do truck <- Truck_findOne q ;
          match truck with
          | None =>
              return_ (json 400 (Failure "Invalid Truck ID. Truck does not exist."))
          | Some truck =>
              if negb (String.eqb (Truck.availabilityStatus truck) "Available")
              then return_ (json 400 (Failure "Truck is not available."))
              else ret tt
          end
        else ret tt) ;;
       (if truthy driverId then
          do q <- cast (castNumber driverId) ;
          do driver <- Driver_findOne q ;
          match driver with
          | None =>
              return_ (json 400 (Failure "Invalid Driver ID. Driver does not exist."))
          | Some driver =>
              if negb (String.eqb (Driver.availabilityStatus driver) "Available")
              then return_ (json 400 (Failure "Driver is not available."))
              else ret tt
          end
        else ret tt) ;;
       (if truthy clientId then
          do q <- cast (castNumber clientId) ;
          do client <- Client_findOne q ;
          match client with
          | None =>
              return_ (json 400 (Failure "Invalid Client ID. Client does not exist."))
          | Some _ => ret tt
          end
        else ret tt) ;;
       do shipment <-
         Shipment_save
           (Shipment_new shipmentName clientId pickupLocation deliveryLocation
              cargoType cargoWeight specialInstructions departureDate
              arrivalDate status truckId driverId) ;
       (if truthy truckId then
          do q <- cast (castNumber truckId) ;
          Truck_updateOne q (Truck.set_availabilityStatus "Not Available")
        else ret tt) ;;
       (if truthy driverId then
          do q <- cast (castNumber driverId) ;
          do assignedTruck <- set_value truckId ;
          Driver_updateOne q
            (fun d =>
               let d := Driver.set_availabilityStatus "Not Available" d in
               match assignedTruck with
               | Some a => Driver.set_assignedTruck a d
               | None => d
               end)
        else ret tt) ;;
       return_ (json 201 (WithShipment "Shipment created successfully." shipment)))
      (fun error => internal_error).

(** The callback that [getAllShipments] maps over the shipments. Its
    lookups run under [Promise.all] and are not sequenced with one another,
    so they read the store without entering the trace. *)
Definition populate (s : Store) (shipment : Shipment.t) : exn + Populated :=
  let truck :=
    find_first (fun d => id_matches (Shipment.truckId shipment) (Truck.truckId d))
      (trucks s) in
  let driver :=
    find_first (fun d => id_matches (Shipment.driverId shipment) (Driver.driverId d))
      (drivers s) in
  let client :=
    find_first (fun d => id_matches (Shipment.clientId shipment) (Client.clientId d))
      (clients s) in
  match client with
  | None => inl TypeError
  | Some client =>
      inr {| p_shipment := shipment; p_truck := truck; p_driver := driver;
             p_clientName := Client.clientName client |}
  end.

(** [Promise.all]: the results in order, or a rejection. *)
Fixpoint Promise_all {A} (l : list (exn + A)) : exn + list A :=
  match l with
  | [] => inr []
  | inl e :: _ => inl e
  | inr a :: r =>
      match Promise_all r with
      | inl e => inl e
      | inr r' => inr (a :: r')
      end
  end.

Definition getAllShipments : World -> World * Response :=
  try_catch
    (do s <- get_store ;
     do populatedShipments <- cast (Promise_all (map (populate s) (shipments s))) ;
     return_ (json 200 (ShipmentList populatedShipments)))
    (fun error => internal_error).

Definition getShipmentById (shipmentId : string) : World -> World * Response :=
  try_catch
    (do q <- cast (castNumber (VStr shipmentId)) ;
     do shipment <- Shipment_findOne q ;
     match shipment with
     | None => return_ (json 404 (Error "Shipment not found."))
     | Some shipment =>
         do truck <- Truck_findOne (Shipment.truckId shipment) ;
         do driver <- Driver_findOne (Shipment.driverId shipment) ;
         return_ (json 200 (ShipmentView None shipment truck driver))
     end)
    (fun error => internal_error).

(** The eight chains run at the top of [updateShipment]. *)
Definition updateShipment_errors (b : Req.t) : list FieldError :=
  run true "shipmentName"
    [(isString, Invalid_value);
     (notEmpty, "Shipment Name must be a non-empty string.")]
    (Req.shipmentName b)
  ++ run true "pickupLocation"
    [(isString, Invalid_value);
     (notEmpty, "Pickup location must be a non-empty string.")]
    (Req.pickupLocation b)
  ++ run true "deliveryLocation"
    [(isString, Invalid_value);
     (notEmpty, "Delivery location must be a non-empty string.")]
    (Req.deliveryLocation b)
  ++ run true "cargoType"
    [(isString, Invalid_value);
     (notEmpty, "Cargo type must be a non-empty string.")]
    (Req.cargoType b)
  ++ run true "cargoWeight"
    [(standard isFloat_gt0, "Cargo weight must be a positive number.")]
    (Req.cargoWeight b)
  ++ run true "departureDate"
    [(standard isISO8601, "Departure date must be a valid date.")]
    (Req.departureDate b)
  ++ run true "arrivalDate"
    [(standard isISO8601, "Arrival date must be a valid date.")]
    (Req.arrivalDate b)
  ++ run true "status"
    [(isIn ["pending"; "delivered"; "cancelled"],
      "Status must be 'pending', 'delivered', or 'cancelled'.")]
    (Req.status b).

Definition updateShipment (id : string) (b : Req.t) : World -> World * Response :=
  let errors := updateShipment_errors b in
  if negb (if errors is [] then true else false) then
    fun w => (w, json 400 (Errors errors))
  else
    try_catch
      (do q <- cast (castNumber (VStr id)) ;
       do updatedShipment <- Shipment_findOneAndUpdate q b ;
       do truckId <- member updatedShipment Shipment.truckId ;
       do truck <- Truck_findOne truckId ;
       do driverId <- member updatedShipment Shipment.driverId ;
       do driver <- Driver_findOne driverId ;
       match updatedShipment with
       | None => return_ (json 404 (Error "Shipment not found."))
       | Some updatedShipment =>
           return_ (json 200
             (ShipmentView (Some "Shipment updated successfully.")
                updatedShipment truck driver))
       end)
      (fun error => internal_error).

Definition deleteShipment (id : string) : World -> World * Response :=
  try_catch
    (do q <- cast (castNumber (VStr id)) ;
     do deletedShipment <- Shipment_findOneAndDelete q ;
     match deletedShipment with
     | None => return_ (json 404 (Error "Shipment not found."))
     | Some deletedShipment =>
         return_ (json 200
           (WithShipment "Shipment deleted successfully." deletedShipment))
     end)
    (fun error => internal_error).

End Handlers.
End ShipmentController.

(** ** controller/driverController.js *)

Module DriverController.
Section Handlers.
Context `{External}.
Import ExpressValidator.

(** [param("driverId").isInt()]: a route parameter is a string. *)
Definition driverId_errors (driverId : string) : list FieldError :=
  run false "driverId"
    [(isInt, "Driver ID must be a valid integer.")] (VStr driverId).

Definition getDriverById (driverId : string) : World -> World * Response :=
  let errors := driverId_errors driverId in
  if negb (if errors is [] then true else false) then
    fun w => (w, json 400 (Errors errors))
  else
    try_catch
      (do q <- cast (castNumber (VStr driverId)) ;
       do driver <- Driver_findOne q ;
       do assignedTruck <- member driver Driver.assignedTruck ;
       do truck <- Truck_findOne assignedTruck ;
       match driver with
       | None => return_ (json 404 (Error "Driver not found."))
       | Some driver => return_ (json 200 (DriverView None driver truck))
       end)
      (fun error => internal_error).

Definition updateDriverById_errors (driverId : string) (b : DriverReq.t)
  : list FieldError :=
  driverId_errors driverId
  ++ run true "name"
    [(isString, "Driver name must be a string.")] (DriverReq.name b)
  ++ run true "licenseNumber"
    [(isString, "License number must be a string.")] (DriverReq.licenseNumber b)
  ++ run true "phoneNumber"
    [(isNumeric, "Phone number must be a number.")] (DriverReq.phoneNumber b)
  ++ run true "address"
    [(isString, "Address must be a string.")] (DriverReq.address b)
  ++ run true "salary"
    [(standard isFloat_gt0, "Salary must be a positive number.")]
    (DriverReq.salary b)
  ++ run true "experience"
    [(isInt_min0, "Experience must be a non-negative integer.")]
    (DriverReq.experience b)
  ++ run true "availabilityStatus"
    [(isIn ["Available"; "Not Available"],
      "Availability status must be either Available or Not Available.")]
    (DriverReq.availabilityStatus b)
  ++ run true "assignedTruck"
    [(isMongoId, "Assigned truck must be a valid MongoDB ObjectId.")]
    (DriverReq.assignedTruck b).

Definition updateDriverById (driverId : string) (updateData : DriverReq.t)
  : World -> World * Response :=
  let errors := updateDriverById_errors driverId updateData in
  if negb (if errors is [] then true else false) then
    fun w => (w, json 400 (Errors errors))
  else
    try_catch
      (do q <- cast (castNumber (VStr driverId)) ;
       do driver <- Driver_findOneAndUpdate q updateData ;
       do truckId <- member driver Driver.assignedTruck ;
       do assignedTruck <- Truck_findOne truckId ;
       match driver with
       | None => return_ (json 404 (Error "Driver not found."))
       | Some driver =>
           return_ (json 200
             (DriverView (Some "Driver updated successfully.") driver assignedTruck))
       end)
      (fun error => internal_error).

Definition deleteDriverById (driverId : string) : World -> World * Response :=
  let errors := driverId_errors driverId in
  if negb (if errors is [] then true else false) then
    fun w => (w, json 400 (Errors errors))
  else
    try_catch
      (do q <- cast (castNumber (VStr driverId)) ;
       do result <- Driver_findOneAndDelete q ;
       match result with
       | None => return_ (json 404 (Error "Driver not found."))
       | Some _ => return_ (json 200 (Message "Driver deleted successfully."))
       end)
      (fun error => internal_error).

End Handlers.
End DriverController.

(** ** The update of a found document *)

(** Modelled from the spec: what [findOneAndUpdate(_, req.body, { new: true,
    runValidators: true })] does to the document it found, for the schemas
    the data model describes. Each key of the body is a path of [$set]: its
    value is cast as the constructor casts it, and a key the body does not
    have leaves its path alone. A value that cannot be cast, or a document
    the validators refuse, rejects the update. *)
Module Update.
Section Sets.
Context `{External}.

Definition set_path {A} (v : value) (new old : A) : A :=
  if is_undefined v then old else new.

Definition Shipment_set (b : Req.t) (d : Shipment.t) : option Shipment.t :=
  match castNumber (Req.clientId b), castNumber (Req.truckId b),
        castNumber (Req.driverId b) with
  | inr client, inr truck, inr driver =>
      let updated :=
        {| Shipment.shipmentId := Shipment.shipmentId d;
           Shipment.shipmentName :=
             set_path (Req.shipmentName b) (castString (Req.shipmentName b))
               (Shipment.shipmentName d);
           Shipment.clientId :=
             set_path (Req.clientId b) client (Shipment.clientId d);
           Shipment.pickupLocation :=
             set_path (Req.pickupLocation b) (castString (Req.pickupLocation b))
               (Shipment.pickupLocation d);
           Shipment.deliveryLocation :=
             set_path (Req.deliveryLocation b)
               (castString (Req.deliveryLocation b)) (Shipment.deliveryLocation d);
           Shipment.cargoType :=
             set_path (Req.cargoType b) (castString (Req.cargoType b))
               (Shipment.cargoType d);
           Shipment.cargoWeight :=
             set_path (Req.cargoWeight b) (castString (Req.cargoWeight b))
               (Shipment.cargoWeight d);
           Shipment.specialInstructions :=
             set_path (Req.specialInstructions b)
               (castString (Req.specialInstructions b))
               (Shipment.specialInstructions d);
           Shipment.departureDate :=
             set_path (Req.departureDate b) (toDate (Req.departureDate b))
               (Shipment.departureDate d);
           Shipment.arrivalDate :=
             set_path (Req.arrivalDate b) (toDate (Req.arrivalDate b))
               (Shipment.arrivalDate d);
           Shipment.status :=
             set_path (Req.status b) (castString (Req.status b))
               (Shipment.status d);
           Shipment.truckId :=
             set_path (Req.truckId b) truck (Shipment.truckId d);
           Shipment.driverId :=
             set_path (Req.driverId b) driver (Shipment.driverId d) |} in
      if shipmentSchema updated then Some updated else None
  | _, _, _ => None
  end.

(** A path kept in the association list of a document: the entry of the
    key is replaced where it stands, or added at the end. *)
Fixpoint put (k : string) (v : value) (l : list (string * value))
  : list (string * value) :=
  match l with
  | [] => [(k, v)]
  | (k', v') :: r =>
      if String.eqb k' k then (k, v) :: r else (k', v') :: put k v r
  end.

Definition set_field (k : string) (v : value) (l : list (string * value))
  : list (string * value) :=
  if is_undefined v then l else put k v l.

(** The status is a string path, which the chain lets one of the two
    values reach; the truck is a number path. *)
Definition Driver_set (schema : Driver.t -> bool) (b : DriverReq.t) (d : Driver.t)
  : option Driver.t :=
  match castNumber (DriverReq.assignedTruck b) with
  | inr truck =>
      let updated :=
        {| Driver.driverId := Driver.driverId d;
           Driver.availabilityStatus :=
             default (Driver.availabilityStatus d)
               (castString (DriverReq.availabilityStatus b));
           Driver.assignedTruck :=
             set_path (DriverReq.assignedTruck b) truck (Driver.assignedTruck d);
           Driver.fields :=
             set_field "experience" (DriverReq.experience b)
               (set_field "salary" (DriverReq.salary b)
                  (set_field "address" (DriverReq.address b)
                     (set_field "phoneNumber" (DriverReq.phoneNumber b)
                        (set_field "licenseNumber" (DriverReq.licenseNumber b)
                           (set_field "name" (DriverReq.name b)
                              (Driver.fields d)))))) |} in
      if schema updated then Some updated else None
  | inl _ => None
  end.

End Sets.
End Update.

(** ** A reference instance and a small store *)

Module Reference.

(** Stand-ins that agree with validator.js and with [Number] on the plain
    literals used below: a positive decimal literal, a date written
    [YYYY-MM-DD], and NaN for any text that is no decimal literal. The
    Shipment schema is the one the data model describes: [status] is one
    of the three enumerated strings. An update sets the paths of the body. *)
Definition ref_isFloat_gt0 (s : string) : bool :=
  match decimal_literal s with
  | Some (false, d1, frac) =>
      negb (forallb is_zero_digit (d1 ++ default [] frac))
  | _ => false
  end.

Definition ref_isISO8601 (s : string) : bool :=
  match String.list_ascii_of_string s with
  | [y1; y2; y3; y4; "-"%char; m1; m2; "-"%char; d1; d2] =>
      forallb is_digit [y1; y2; y3; y4; m1; m2; d1; d2]
  | _ => false
  end.

(** Modelled from the spec: the Shipment schema's [status] enum. *)
Definition ref_shipmentSchema (d : Shipment.t) : bool :=
  match Shipment.status d with
  | Some s => Validator.isIn ["pending"; "delivered"; "cancelled"] s
  | None => true
  end.

(** Modelled from the spec: the Driver schema's [availabilityStatus] enum. *)
Definition ref_driverSchema (d : Driver.t) : bool :=
  Validator.isIn ["Available"; "Not Available"] (Driver.availabilityStatus d).

(** The validators and casts alone, from which the updates below take
    their casts; no update is given yet, so each one is rejected. *)
Definition ref_casts : External := {|
  isFloat_gt0 := ref_isFloat_gt0;
  isISO8601 := ref_isISO8601;
  Number_other := fun _ => None;
  omitUndefined := true;
  shipmentSchema := ref_shipmentSchema;
  shipmentUpdate := fun _ _ => None;
  driverUpdate := fun _ _ => None
|}.

#[export] Instance ref : External := {|
  isFloat_gt0 := ref_isFloat_gt0;
  isISO8601 := ref_isISO8601;
  Number_other := fun _ => None;
  omitUndefined := true;
  shipmentSchema := ref_shipmentSchema;
  shipmentUpdate := Update.Shipment_set (H := ref_casts);
  driverUpdate := Update.Driver_set (H := ref_casts) ref_driverSchema
|}.

Definition truck1 : Truck.t :=
  {| Truck.truckId := 1; Truck.availabilityStatus := "Available"; Truck.fields := [] |}.
Definition truck2 : Truck.t :=
  {| Truck.truckId := 2; Truck.availabilityStatus := "Not Available"; Truck.fields := [] |}.
Definition driver1 : Driver.t :=
  {| Driver.driverId := 1; Driver.availabilityStatus := "Available";
     Driver.assignedTruck := None; Driver.fields := [] |}.
Definition driver2 : Driver.t :=
  {| Driver.driverId := 2; Driver.availabilityStatus := "Not Available";
     Driver.assignedTruck := Some (Int 2); Driver.fields := [] |}.
Definition driver3 : Driver.t :=
  {| Driver.driverId := 3; Driver.availabilityStatus := "Available";
     Driver.assignedTruck := Some (Int 7); Driver.fields := [] |}.
Definition client1 : Client.t :=
  {| Client.clientId := 1; Client.clientName := Some "Acme"; Client.fields := [] |}.

Definition store0 : Store :=
  {| trucks := [truck1; truck2]; drivers := [driver1; driver2; driver3];
     clients := [client1]; shipments := []; counters := ∅ |}.

Definition world0 : World := {| store := store0; trace := [] |}.

(** A body that passes the ten chains, without truck or driver. *)
Definition body0 : Req.t :=
  {| Req.shipmentName := VStr "Steel coils";
     Req.clientId := VNum 1;
     Req.pickupLocation := VStr "Pune";
     Req.deliveryLocation := VStr "Mumbai";
     Req.cargoType := VStr "Steel";
     Req.cargoWeight := VNum 1200;
     Req.specialInstructions := VUndef;
     Req.departureDate := VStr "2024-01-10";
     Req.arrivalDate := VStr "2024-01-12";
     Req.status := VUndef;
     Req.truckId := VUndef;
     Req.driverId := VUndef |}.

Definition with_refs (client truck driver : value) (b : Req.t) : Req.t :=
  {| Req.shipmentName := Req.shipmentName b;
     Req.clientId := client;
     Req.pickupLocation := Req.pickupLocation b;
     Req.deliveryLocation := Req.deliveryLocation b;
     Req.cargoType := Req.cargoType b;
     Req.cargoWeight := Req.cargoWeight b;
     Req.specialInstructions := Req.specialInstructions b;
     Req.departureDate := Req.departureDate b;
     Req.arrivalDate := Req.arrivalDate b;
     Req.status := Req.status b;
     Req.truckId := truck;
     Req.driverId := driver |}.

Definition with_status (status specialInstructions : value) (b : Req.t) : Req.t :=
  {| Req.shipmentName := Req.shipmentName b;
     Req.clientId := Req.clientId b;
     Req.pickupLocation := Req.pickupLocation b;
     Req.deliveryLocation := Req.deliveryLocation b;
     Req.cargoType := Req.cargoType b;
     Req.cargoWeight := Req.cargoWeight b;
     Req.specialInstructions := specialInstructions;
     Req.departureDate := Req.departureDate b;
     Req.arrivalDate := Req.arrivalDate b;
     Req.status := status;
     Req.truckId := Req.truckId b;
     Req.driverId := Req.driverId b |}.

Definition with_cargoWeight (cargoWeight : value) (b : Req.t) : Req.t :=
  {| Req.shipmentName := Req.shipmentName b;
     Req.clientId := Req.clientId b;
     Req.pickupLocation := Req.pickupLocation b;
     Req.deliveryLocation := Req.deliveryLocation b;
     Req.cargoType := Req.cargoType b;
     Req.cargoWeight := cargoWeight;
     Req.specialInstructions := Req.specialInstructions b;
     Req.departureDate := Req.departureDate b;
     Req.arrivalDate := Req.arrivalDate b;
     Req.status := Req.status b;
     Req.truckId := Req.truckId b;
     Req.driverId := Req.driverId b |}.

(** The empty body [{}] of an update. *)
Definition no_fields : Req.t :=
  {| Req.shipmentName := VUndef; Req.clientId := VUndef;
     Req.pickupLocation := VUndef; Req.deliveryLocation := VUndef;
     Req.cargoType := VUndef; Req.cargoWeight := VUndef;
     Req.specialInstructions := VUndef; Req.departureDate := VUndef;
     Req.arrivalDate := VUndef; Req.status := VUndef;
     Req.truckId := VUndef; Req.driverId := VUndef |}.

Definition no_driver_fields : DriverReq.t :=
  {| DriverReq.name := VUndef; DriverReq.licenseNumber := VUndef;
     DriverReq.phoneNumber := VUndef; DriverReq.address := VUndef;
     DriverReq.salary := VUndef; DriverReq.experience := VUndef;
     DriverReq.availabilityStatus := VUndef;
     DriverReq.assignedTruck := VUndef |}.

(** A store in which a truck has the id 0. *)
Definition truck0 : Truck.t :=
  {| Truck.truckId := 0; Truck.availabilityStatus := "Available"; Truck.fields := [] |}.
Definition store_zero : Store :=
  {| trucks := [truck0; truck1]; drivers := [driver1]; clients := [client1];
     shipments := []; counters := ∅ |}.
Definition world_zero : World := {| store := store_zero; trace := [] |}.

(** Stored shipments: one of client 1 on truck 1, one of a client 9 that
    does not exist. *)
Definition shipment_of_client (id client : Z) : Shipment.t :=
  {| Shipment.shipmentId := id;
     Shipment.shipmentName := Some "Steel coils";
     Shipment.clientId := Some (Int client);
     Shipment.pickupLocation := Some "Pune";
     Shipment.deliveryLocation := Some "Mumbai";
     Shipment.cargoType := Some "Steel";
     Shipment.cargoWeight := Some "1200";
     Shipment.specialInstructions := None;
     Shipment.departureDate := Some "2024-01-10";
     Shipment.arrivalDate := Some "2024-01-12";
     Shipment.status := Some "pending";
     Shipment.truckId := Some (Int 1);
     Shipment.driverId := None |}.

Definition world_listed : World :=
  {| store := with_shipments [shipment_of_client 1 1] store0; trace := [] |}.
Definition world_orphan : World :=
  {| store := with_shipments [shipment_of_client 1 1; shipment_of_client 2 9] store0;
     trace := [] |}.

Definition bill0 : Bill.t :=
  {| Bill.billId := 0; Bill.isNew := true; Bill.fields := [] |}.

(** The same environment with the Mongoose 5 treatment of [undefined]. *)
Definition ref5 : External := {|
  isFloat_gt0 := ref_isFloat_gt0;
  isISO8601 := ref_isISO8601;
  Number_other := fun _ => None;
  omitUndefined := false;
  shipmentSchema := ref_shipmentSchema;
  shipmentUpdate := Update.Shipment_set (H := ref_casts);
  driverUpdate := Update.Driver_set (H := ref_casts) ref_driverSchema
|}.

End Reference.

(** ** Vocabulary of the statements *)

Section Vocabulary.
Context `{External}.

(** The filter value a query is sent with, once the request value is cast. *)
Definition filter_of (v : value) : option num :=
  match castNumber v with
  | inr q => q
  | inl _ => None
  end.

(** What [Truck.findOne({ truckId })], [Driver.findOne({ driverId })] and
    [Client.findOne({ clientId })] return in a store. *)
Definition truck_of (s : Store) (v : value) : option Truck.t :=
  find_first (fun d => id_matches (filter_of v) (Truck.truckId d)) (trucks s).
Definition driver_of (s : Store) (v : value) : option Driver.t :=
  find_first (fun d => id_matches (filter_of v) (Driver.driverId d)) (drivers s).
Definition client_of (s : Store) (v : value) : option Client.t :=
  find_first (fun d => id_matches (filter_of v) (Client.clientId d)) (clients s).

(** A check passes when the id is not truthy, or when it selects a
    document (that is available, for a truck or a driver). *)
Definition truck_passes (s : Store) (v : value) : bool :=
  negb (truthy v)
  || match truck_of s v with
     | Some t => String.eqb (Truck.availabilityStatus t) "Available"
     | None => false
     end.
Definition driver_passes (s : Store) (v : value) : bool :=
  negb (truthy v)
  || match driver_of s v with
     | Some d => String.eqb (Driver.availabilityStatus d) "Available"
     | None => false
     end.
Definition client_passes (s : Store) (v : value) : bool :=
  negb (truthy v) || (if client_of s v is Some _ then true else false).

(** The lookup a check issues. *)
Definition lookup (c : Collection) (v : value) : list Event :=
  if truthy v then [EvFindOne c (filter_of v)] else [].

(** The same world after further database calls. *)
Definition after (w : World) (evs : list Event) : World :=
  {| store := store w; trace := trace w ++ evs |}.

(** The document [createShipment] hands to [save()], and whether the
    schema accepts it. *)
Definition shipment_of (b : Req.t) : option Shipment.t :=
  Shipment_new (Req.shipmentName b) (Req.clientId b) (Req.pickupLocation b)
    (Req.deliveryLocation b) (Req.cargoType b) (Req.cargoWeight b)
    (Req.specialInstructions b) (Req.departureDate b) (Req.arrivalDate b)
    (if is_undefined (Req.status b) then VStr "pending" else Req.status b)
    (Req.truckId b) (Req.driverId b).
Definition schema_accepts (b : Req.t) : bool :=
  match shipment_of b with
  | Some d => shipmentSchema d
  | None => false
  end.

(** What [Shipment.findOne({ shipmentId })] returns for a route parameter. *)
Definition shipment_with (s : Store) (id : string) : option Shipment.t :=
  find_first (fun d => id_matches (filter_of (VStr id)) (Shipment.shipmentId d))
    (shipments s).

(** The lookups of [getAllShipments] for one shipment. *)
Definition truck_for (s : Store) (shipment : Shipment.t) : option Truck.t :=
  find_first (fun d => id_matches (Shipment.truckId shipment) (Truck.truckId d))
    (trucks s).
Definition driver_for (s : Store) (shipment : Shipment.t) : option Driver.t :=
  find_first (fun d => id_matches (Shipment.driverId shipment) (Driver.driverId d))
    (drivers s).
Definition client_for (s : Store) (shipment : Shipment.t) : option Client.t :=
  find_first (fun d => id_matches (Shipment.clientId shipment) (Client.clientId d))
    (clients s).

(** The ten fields that [createShipment] runs a chain on. *)
Inductive field : Type :=
  | F_clientId | F_shipmentName | F_pickupLocation | F_deliveryLocation
  | F_cargoType | F_cargoWeight | F_departureDate | F_arrivalDate
  | F_truckId | F_driverId.

Definition field_name (f : field) : string :=
  match f with
  | F_clientId => "clientId"
  | F_shipmentName => "shipmentName"
  | F_pickupLocation => "pickupLocation"
  | F_deliveryLocation => "deliveryLocation"
  | F_cargoType => "cargoType"
  | F_cargoWeight => "cargoWeight"
  | F_departureDate => "departureDate"
  | F_arrivalDate => "arrivalDate"
  | F_truckId => "truckId"
  | F_driverId => "driverId"
  end.

(** A required field violates its constraint when a validator of its chain
    rejects it (as it does a missing one); [truckId] and [driverId] do when
    they are supplied and not numeric. *)
Definition violated (f : field) (b : Req.t) : bool :=
  let text v := ExpressValidator.isString v && ExpressValidator.notEmpty v in
  let supplied v := negb (is_undefined v) in
  match f with
  | F_clientId => negb (ExpressValidator.isNumeric (Req.clientId b))
  | F_shipmentName => negb (ExpressValidator.isString (Req.shipmentName b))
  | F_pickupLocation => negb (text (Req.pickupLocation b))
  | F_deliveryLocation => negb (text (Req.deliveryLocation b))
  | F_cargoType => negb (text (Req.cargoType b))
  | F_cargoWeight =>
      negb (ExpressValidator.standard isFloat_gt0 (Req.cargoWeight b))
  | F_departureDate =>
      negb (ExpressValidator.standard isISO8601 (Req.departureDate b))
  | F_arrivalDate =>
      negb (ExpressValidator.standard isISO8601 (Req.arrivalDate b))
  | F_truckId =>
      supplied (Req.truckId b)
      && negb (ExpressValidator.isNumeric (Req.truckId b))
  | F_driverId =>
      supplied (Req.driverId b)
      && negb (ExpressValidator.isNumeric (Req.driverId b))
  end.

End Vocabulary.

(** ** The rest of controller/driverController.js *)

(** Modelled from the spec: the validators of the Driver schema, run by
    [save()] ([models/Driver.js] is not among the sources). *)
Class DriverModel : Type := {
  driverSchema : Driver.t -> bool
}.

(** [{ ...driver.toObject(), assignedTruck }] *)
Record DriverEntry : Type := {
  e_driver : Driver.t;
  e_assignedTruck : option Truck.t
}.

(** What the driver routes below send: one of the bodies above,
    [{ message, driver }], or the array of the listings. *)
Inductive DriverBody : Type :=
  | Plain (b : Body)
  | DriverCreated (message : string) (driver : Driver.t)
  | DriverList (l : list DriverEntry).

Record DriverAnswer : Type := answer { d_status : Z; d_body : DriverBody }.

(** A handler whose [try] block ends in [return res.status(code).json(...)]
    built from the value the block computed. *)
Definition try_catch_then {A} (block : M A) (final : A -> DriverAnswer)
    (handler : exn -> DriverAnswer) : World -> World * DriverAnswer :=
  fun w =>
    match block w with
    | (w', Val a) => (w', final a)
    | (w', Ret r) => (w', answer (status r) (Plain (body r)))
    | (w', Exn e) => (w', handler e)
    end.

(** A path of a document kept in the association list. *)
Fixpoint path_of (k : string) (l : list (string * value)) : option value :=
  match l with
  | [] => None
  | (k', v) :: r => if String.eqb k' k then Some v else path_of k r
  end.

(** The paths a constructor was given a value for. *)
Definition supplied (l : list (string * value)) : list (string * value) :=
  List.filter (fun kv => negb (is_undefined kv.2)) l.

Module DriverController2.
Section Handlers.
Context `{External} `{DriverModel}.
Import ExpressValidator.

(** The eight chains run at the top of [createDriver]. *)
Definition createDriver_errors (b : DriverReq.t) : list FieldError :=
  run false "name"
    [(isString, Invalid_value); (notEmpty, "Driver name is required.")]
    (DriverReq.name b)
  ++ run false "licenseNumber"
    [(isString, Invalid_value); (notEmpty, "License number is required.")]
    (DriverReq.licenseNumber b)
  ++ run false "phoneNumber"
    [(isNumeric, Invalid_value); (notEmpty, "Phone number is required.")]
    (DriverReq.phoneNumber b)
  ++ run false "address"
    [(isString, Invalid_value); (notEmpty, "Address is required.")]
    (DriverReq.address b)
  ++ run false "salary"
    [(standard isFloat_gt0, "Salary must be a positive number.")]
    (DriverReq.salary b)
  ++ run true "experience"
    [(isString, "Experience must be a string.")] (DriverReq.experience b)
  ++ run true "availabilityStatus"
    [(isIn ["Available"; "Not Available"],
      "Availability status must be either Available or Not Available.")]
    (DriverReq.availabilityStatus b)
  ++ run true "assignedTruck"
    [(isNumeric, "Assigned truck must be a valid MongoDB ObjectId.")]
    (DriverReq.assignedTruck b).

(** Whether a stored driver has the license number of the filter. The
    handler reaches the query with a string only. *)
Definition has_licenseNumber (licenseNumber : value) (d : Driver.t) : bool :=
  match licenseNumber, path_of "licenseNumber" (Driver.fields d) with
  | VStr wanted, Some (VStr stored) => String.eqb stored wanted
  | _, _ => false
  end.

(** [Driver.findOne({ licenseNumber: licenseNumber })]. The trace has events
    for the queries by numeric id only; this one reads the store without
    entering it. *)
Definition Driver_findOne_licenseNumber (licenseNumber : value)
  : M (option Driver.t) :=
  do s <- get_store ;
  ret (find_first (has_licenseNumber licenseNumber) (drivers s)).

(** [new Driver({ driverId: 0, name, licenseNumber, ... })]: the status is
    cast to a string and defaults to "Available", the truck is cast to a
    number; the other paths keep the value they were given, and a path
    given [undefined] is absent. *)
Definition Driver_new (name licenseNumber phoneNumber address salary
    experience availabilityStatus assignedTruck : value) : option Driver.t :=
  match castNumber assignedTruck with
  | inr truck =>
      Some {| Driver.driverId := 0;
              Driver.availabilityStatus :=
                default "Available" (castString availabilityStatus);
              Driver.assignedTruck := truck;
              Driver.fields :=
                supplied [("name", name); ("licenseNumber", licenseNumber);
                          ("phoneNumber", phoneNumber); ("address", address);
                          ("salary", salary); ("experience", experience)] |}
  | inl _ => None
  end.

Definition set_driverId (n : Z) (d : Driver.t) : Driver.t :=
  {| Driver.driverId := n; Driver.availabilityStatus := Driver.availabilityStatus d;
     Driver.assignedTruck := Driver.assignedTruck d; Driver.fields := Driver.fields d |}.

(** Modelled from the spec: [driver.save()] of [models/Driver.js]. The
    document is validated against the schema, the pre-save hook replaces
    the placeholder id by the next value of the "driverId" sequence, and the
    document is inserted. *)
Definition Driver_save (doc : option Driver.t) : M Driver.t :=
  match doc with
  | None => throw ValidationError
  | Some d =>
      if negb (driverSchema d) then throw ValidationError
      else
        do sequence <- Counter_next "driverId" ;
        let driver := set_driverId sequence d in
        log (EvInsert Drivers) ;;
        modify_store (fun s => with_drivers (drivers s ++ [driver]) s) ;;
        ret driver
  end.

Definition createDriver (b : DriverReq.t) : World -> World * DriverAnswer :=
  let errors := createDriver_errors b in
  if negb (if errors is [] then true else false) then
    fun w => (w, answer 400 (Plain (Errors errors)))
  else
    let name := DriverReq.name b in
    let licenseNumber := DriverReq.licenseNumber b in
    let phoneNumber := DriverReq.phoneNumber b in
    let address := DriverReq.address b in
    let salary := DriverReq.salary b in
    let experience := DriverReq.experience b in
    let availabilityStatus := DriverReq.availabilityStatus b in
    let assignedTruck := DriverReq.assignedTruck b in
    try_catch_then
      (do exist <- Driver_findOne_licenseNumber licenseNumber ;
       (if exist is Some _
        then return_ (json 400 (Failure "License Exists"))
        else ret tt) ;;
       Driver_save
         (Driver_new name licenseNumber phoneNumber address salary experience
            availabilityStatus assignedTruck))
      (fun driver => answer 201 (DriverCreated "Driver created successfully." driver))
      (fun error => answer 500 (Plain (Error "An internal server error occurred."))).

(** The callback that the two listings map over the drivers; it reads no
    property of what its lookup returns. *)
Definition with_assignedTruck (s : Store) (driver : Driver.t) : exn + DriverEntry :=
  inr {| e_driver := driver;
         e_assignedTruck :=
           find_first
             (fun d => id_matches (Driver.assignedTruck driver) (Truck.truckId d))
             (trucks s) |}.

Definition list_answer (l : exn + list DriverEntry) : DriverAnswer :=
  match l with
  | inr driversWithTrucks => answer 200 (DriverList driversWithTrucks)
  | inl error => answer 500 (Plain (Error "An internal server error occurred."))
  end.

Definition getAllDrivers : World -> World * DriverAnswer :=
  fun w =>
    let s := store w in
    let drivers := drivers s in
    (w, list_answer
          (ShipmentController.Promise_all (map (with_assignedTruck s) drivers))).

(** [Driver.find({ availabilityStatus: "Available" })] *)
Definition getAvailableDrivers : World -> World * DriverAnswer :=
  fun w =>
    let s := store w in
    let availableDrivers :=
      List.filter (fun d => String.eqb (Driver.availabilityStatus d) "Available")
        (drivers s) in
    (w, list_answer
          (ShipmentController.Promise_all
             (map (with_assignedTruck s) availableDrivers))).

End Handlers.
End DriverController2.

(** A Driver schema for the samples: the status is one of the two values. *)
Module Reference2.

#[export] Instance ref_driver : DriverModel := {|
  driverSchema := fun d =>
    Validator.isIn ["Available"; "Not Available"] (Driver.availabilityStatus d)
|}.

Definition driver_body : DriverReq.t :=
  {| DriverReq.name := VStr "Asha";
     DriverReq.licenseNumber := VStr "MH12-2024-0001";
     DriverReq.phoneNumber := VNum 9820012345;
     DriverReq.address := VStr "Pune";
     DriverReq.salary := VNum 30000;
     DriverReq.experience := VUndef;
     DriverReq.availabilityStatus := VUndef;
     DriverReq.assignedTruck := VUndef |}.

End Reference2.

(** ** Vocabulary of the further statements *)

(** A truck across a request: the same document, or the same document
    with the status "Not Available". *)
Definition truck_kept_or_taken (t t' : Truck.t) : Prop :=
  t' = t \/ t' = Truck.set_availabilityStatus "Not Available" t.

(** A driver across a request: the same document, or one with the same id
    and the same other paths whose status is "Not Available". *)
Definition driver_kept_or_taken (d d' : Driver.t) : Prop :=
  d' = d
  \/ (Driver.driverId d' = Driver.driverId d
      /\ Driver.fields d' = Driver.fields d
      /\ Driver.availabilityStatus d' = "Not Available").



(** The truck a driver's [assignedTruck] selects. *)
Definition assigned_truck (s : Store) (d : Driver.t) : option Truck.t :=
  find_first (fun t => id_matches (Driver.assignedTruck d) (Truck.truckId t))
    (trucks s).

Section DriverVocabulary.
Context `{External} `{DriverModel}.


(** What [Driver.findOne({ licenseNumber })] returns in a store. *)
Definition driver_licensed (s : Store) (licenseNumber : value) : option Driver.t :=
  find_first (DriverController2.has_licenseNumber licenseNumber) (drivers s).

End DriverVocabulary.

(** The drivers [Driver.find({ availabilityStatus: "Available" })] returns. *)
Definition available_drivers (s : Store) : list Driver.t :=
  List.filter (fun d => String.eqb (Driver.availabilityStatus d) "Available")
    (drivers s).

(** The entry of a listing for a driver. *)
Definition entry_of (s : Store) (d : Driver.t) : DriverEntry :=
  {| e_driver := d; e_assignedTruck := assigned_truck s d |}.

(** The integer that a signed string of digits denotes. *)
Definition integer_of (s : string) : Z :=
  let '(neg, digits) := strip_sign (String.list_ascii_of_string s) in
  if neg then - digits_val digits else digits_val digits.

(** [x] stands at index [i] of a collection and is the first document of
    it that a filter selects. *)
Definition first_at {A} (p : A -> bool) (l : list A) (i : nat) (x : A) : Prop :=
  l !! i = Some x
  /\ p x = true
  /\ forall j y, (j < i)%nat -> l !! j = Some y -> p y = false.

(** Further samples. *)
Module Samples.
Import Reference Reference2.

(** The reference store after [driver_body] was created in it. *)
Definition world_driver : World :=
  (DriverController2.createDriver driver_body world0).1.

(** A bill that was saved before. *)
Definition bill_saved : Bill.t :=
  {| Bill.billId := 5; Bill.isNew := false; Bill.fields := [] |}.

(** An update that sets the status of a shipment, and one whose truck is
    no number. *)
Definition status_update : Req.t := with_status (VStr "delivered") VUndef no_fields.
Definition truck_text_update : Req.t :=
  with_refs VUndef (VStr "abc") VUndef no_fields.

(** The shipment [shipment_of_client id client] once it is delivered. *)
Definition shipment_delivered (id client : Z) : Shipment.t :=
  {| Shipment.shipmentId := id;
     Shipment.shipmentName := Some "Steel coils";
     Shipment.clientId := Some (Int client);
     Shipment.pickupLocation := Some "Pune";
     Shipment.deliveryLocation := Some "Mumbai";
     Shipment.cargoType := Some "Steel";
     Shipment.cargoWeight := Some "1200";
     Shipment.specialInstructions := None;
     Shipment.departureDate := Some "2024-01-10";
     Shipment.arrivalDate := Some "2024-01-12";
     Shipment.status := Some "delivered";
     Shipment.truckId := Some (Int 1);
     Shipment.driverId := None |}.

(** An update that takes a driver off the road and records the years of
    experience, written with leading zeroes. *)
Definition driver_status_update : DriverReq.t :=
  {| DriverReq.name := VUndef; DriverReq.licenseNumber := VUndef;
     DriverReq.phoneNumber := VUndef; DriverReq.address := VUndef;
     DriverReq.salary := VUndef; DriverReq.experience := VStr "007";
     DriverReq.availabilityStatus := VStr "Not Available";
     DriverReq.assignedTruck := VUndef |}.

(** Driver 3 after that update. *)
Definition driver3_updated : Driver.t :=
  {| Driver.driverId := 3; Driver.availabilityStatus := "Not Available";
     Driver.assignedTruck := Some (Int 7);
     Driver.fields := [("experience", VStr "007")] |}.

(** An update whose truck is written as the chain asks, as an ObjectId. *)
Definition driver_objectid_update : DriverReq.t :=
  {| DriverReq.name := VUndef; DriverReq.licenseNumber := VUndef;
     DriverReq.phoneNumber := VUndef; DriverReq.address := VUndef;
     DriverReq.salary := VUndef; DriverReq.experience := VUndef;
     DriverReq.availabilityStatus := VUndef;
     DriverReq.assignedTruck := VStr "507f1f77bcf86cd799439011" |}.

(** An update with a numeric truck and the experience "007". *)
Definition driver_experience_update : DriverReq.t :=
  {| DriverReq.name := VUndef; DriverReq.licenseNumber := VUndef;
     DriverReq.phoneNumber := VUndef; DriverReq.address := VUndef;
     DriverReq.salary := VUndef; DriverReq.experience := VStr "007";
     DriverReq.availabilityStatus := VUndef;
     DriverReq.assignedTruck := VNum 1 |}.

End Samples.

(** * Properties *)

Import ExpressValidator.

(** ** validator.js on sample strings *)

Example isNumeric_examples :
  map Validator.isNumeric ["0"; "-12"; "+7"; "1.50"; ".5"; "5."; ""; "abc"; "1e3"; "true"]
  = [true; true; true; true; true; false; false; false; false; false].
Proof. reflexivity. Qed.

Example isInt_examples :
  map Validator.isInt ["0"; "99"; "-3"; "007"; "01"; "+5"; "1.0"; ""; "+"; "1e3"]
  = [true; true; true; true; true; true; false; false; false; false].
Proof. reflexivity. Qed.

Example isInt_min0_examples :
  map Validator.isInt_min0 ["0"; "7"; "007"; "00"; "-0"; "-1"; "1.5"; ""]
  = [true; true; true; true; true; false; false; false].
Proof. reflexivity. Qed.

Example isMongoId_examples :
  map Validator.isMongoId
    ["507f1f77bcf86cd799439011"; "0x7f1f77bcf86cd799439011";
     "507f1f77bcf86cd79943901"; "507f1f77bcf86cd79943901g"; "5"]
  = [true; true; false; false; false].
Proof. reflexivity. Qed.

Example String_of_Z_examples :
  map String_of_Z [0; 5; -12; 1234567] = ["0"; "5"; "-12"; "1234567"].
Proof. vm_compute. reflexivity. Qed.

(** ** Collections *)

Lemma find_first_update_first {A} (p : A -> bool) (f : A -> A) (l : list A) :
  (forall x, p (f x) = p x) ->
  find_first p (update_first p f l) = f <$> find_first p l.
Proof.
  intros Hp. induction l as [|x r IH]; simpl; [done|].
  destruct (p x) eqn:E; simpl.
  - by rewrite Hp, E.
  - by rewrite E.
Qed.

(** ** Validation and casts *)

Lemma run_required_nil field p m v :
  run false field [(p, m)] v = [] -> p v = true.
Proof. unfold run; simpl. by destruct (p v). Qed.

Lemma run_optional_nil field p m v :
  run true field [(p, m)] v = [] -> v = VUndef \/ p v = true.
Proof.
  unfold run; simpl. destruct v; simpl; auto; destruct (p _); auto; done.
Qed.

Lemma isNumeric_not_empty s :
  Validator.isNumeric s = true -> String.eqb s "" = false.
Proof. by destruct s. Qed.

Section CastFacts.
Context `{External}.

Lemma isNumeric_cast v :
  isNumeric v = true -> exists x, castNumber v = inr (Some x).
Proof.
  unfold isNumeric, standard.
  destruct v as [| |[]|n|s]; simpl; try done; eauto.
  intros Hs. rewrite (isNumeric_not_empty _ Hs).
  unfold Validator.isNumeric in Hs. unfold Number.
  destruct (decimal_literal s) as [[[neg d1] frac]|]; [eauto|done].
Qed.

Lemma optional_numeric_cast v :
  v = VUndef \/ isNumeric v = true -> exists q, castNumber v = inr q.
Proof.
  intros [->|Hv]; [by exists None|].
  destruct (isNumeric_cast v Hv) as [x Hx]. eauto.
Qed.

Lemma createShipment_errors_nil b :
  ShipmentController.createShipment_errors b = [] ->
  (exists qc, castNumber (Req.clientId b) = inr qc)
  /\ (exists qt, castNumber (Req.truckId b) = inr qt)
  /\ (exists qd, castNumber (Req.driverId b) = inr qd).
Proof.
  unfold ShipmentController.createShipment_errors. intros Hnil.
  repeat (apply app_eq_nil in Hnil; destruct Hnil as [? Hnil]).
  split_and!.
  - apply optional_numeric_cast. right. by eapply run_required_nil.
  - apply optional_numeric_cast. by eapply run_optional_nil.
  - apply optional_numeric_cast. by eapply run_optional_nil.
Qed.

End CastFacts.

(** ** createShipment *)

Section CreateShipment.
Context `{External}.
Import ShipmentController.

Ltac unfold_handler :=
  unfold createShipment, try_catch, Shipment_save, Truck_updateOne,
    Driver_updateOne, set_value, Truck_findOne, Driver_findOne,
    Client_findOne, Counter_next, bind, ret, return_, throw, cast, log,
    get_store, modify_store.

Ltac unfold_vocabulary :=
  unfold truck_passes, driver_passes, client_passes, truck_of, driver_of,
    client_of, lookup, filter_of, after, schema_accepts, shipment_of in *.

(** Runs the handler on a body that passed validation, with the three
    casts resolved. *)
Ltac run_valid b He :=
  let qc := fresh "qc" in let qt := fresh "qt" in let qd := fresh "qd" in
  let Hc := fresh "Hc" in let Ht := fresh "Ht" in let Hd := fresh "Hd" in
  destruct (createShipment_errors_nil b He) as ([qc Hc] & [qt Ht] & [qd Hd]);
  unfold_vocabulary; unfold_handler; rewrite He; simpl;
  rewrite ?Hc, ?Ht, ?Hd in *; simpl in *.

(** Splits on the next test the handler makes. *)
Ltac step :=
  match goal with
  | |- context [truthy ?v] => destruct (truthy v) eqn:?
  | |- context [is_undefined ?v] => destruct (is_undefined v) eqn:?
  | |- context [find_first ?p ?l] => destruct (find_first p l) eqn:?
  | |- context [String.eqb ?a ?b] => destruct (String.eqb a b) eqn:?
  | |- context [Shipment_new ?a ?b ?c ?d ?e ?f ?g ?h ?i ?j ?k ?l] =>
      destruct (Shipment_new a b c d e f g h i j k l) eqn:?
  | |- context [shipmentSchema ?d] => destruct (shipmentSchema d) eqn:?
  | |- context [@omitUndefined ?E] => destruct (@omitUndefined E) eqn:?
  end; simpl in *; simplify_eq.

(** Splits on every test, then normalises the worlds. *)
Ltac branches w :=
  repeat step;
  try (destruct w; simpl in *; rewrite <- ?app_assoc, ?app_nil_r; simpl; done).

Lemma eqb_Available s :
  s <> "Available" -> String.eqb s "Available" = false.
Proof. intros Hs. by apply String.eqb_neq. Qed.

(** C1: on a body that passed field validation the checks run in the order
    truck, driver, client; the first one that fails answers 400 with its own
    message, the store is untouched, and the trace holds the lookups up to
    the failing one and nothing after it. *)
Theorem createShipment_checks_in_order (b : Req.t) (w : World) :
  createShipment_errors b = [] ->
  let s := store w in
  let tv := Req.truckId b in
  let dv := Req.driverId b in
  let cv := Req.clientId b in
  (truthy tv = true -> truck_of s tv = None ->
   createShipment b w =
     (after w (lookup Trucks tv),
      json 400 (Failure "Invalid Truck ID. Truck does not exist.")))
  /\ (forall t, truthy tv = true -> truck_of s tv = Some t ->
      Truck.availabilityStatus t <> "Available" ->
      createShipment b w =
        (after w (lookup Trucks tv), json 400 (Failure "Truck is not available.")))
  /\ (truck_passes s tv = true -> truthy dv = true -> driver_of s dv = None ->
      createShipment b w =
        (after w (lookup Trucks tv ++ lookup Drivers dv),
         json 400 (Failure "Invalid Driver ID. Driver does not exist.")))
  /\ (forall d, truck_passes s tv = true -> truthy dv = true ->
      driver_of s dv = Some d -> Driver.availabilityStatus d <> "Available" ->
      createShipment b w =
        (after w (lookup Trucks tv ++ lookup Drivers dv),
         json 400 (Failure "Driver is not available.")))
  /\ (truck_passes s tv = true -> driver_passes s dv = true ->
      truthy cv = true -> client_of s cv = None ->
      createShipment b w =
        (after w (lookup Trucks tv ++ lookup Drivers dv ++ lookup Clients cv),
         json 400 (Failure "Invalid Client ID. Client does not exist."))).
Proof.
  intros He s tv dv cv. subst s tv dv cv.
  run_valid b He.
  split_and!.
  - intros Ht1 Ht2. by branches w.
  - intros t Ht1 Ht2 Ht3%eqb_Available. by branches w.
  - intros Hp Hd1 Hd2. by branches w.
  - intros d Hp Hd1 Hd2 Hd3%eqb_Available. by branches w.
  - intros Hp Hp' Hc1 Hc2. by branches w.
Qed.

(** Whenever the answer is a business-rule failure, nothing was written. *)
Lemma createShipment_failure_no_write (b : Req.t) (w w' : World) (m : string) :
  createShipment b w = (w', json 400 (Failure m)) -> store w' = store w.
Proof.
  destruct (createShipment_errors b) eqn:He.
  - run_valid b He. branches w; by intros [= <- <-].
  - unfold createShipment. rewrite He. simpl. by intros [= <- ?].
Qed.

(** C3: a request that passed field validation and fails one of the three
    checks is answered 400 with a business-rule message, and the store it
    leaves is the store it found: no shipment inserted, no truck or driver
    updated, no counter advanced. *)
Theorem createShipment_failed_check_leaves_store (b : Req.t) (w : World) :
  createShipment_errors b = [] ->
  truck_passes (store w) (Req.truckId b)
  && driver_passes (store w) (Req.driverId b)
  && client_passes (store w) (Req.clientId b) = false ->
  exists m evs,
    createShipment b w = (after w evs, json 400 (Failure m)).
Proof.
  intros He Hfail. revert Hfail. run_valid b He.
  branches w; intros ?; simplify_eq; eexists _, _; unfold after; simpl;
    try (rewrite <- ?app_assoc; reflexivity).
Qed.

Lemma find_first_Some {A} (p : A -> bool) (l : list A) (x : A) :
  find_first p l = Some x -> p x = true.
Proof.
  induction l as [|y r IH]; simpl; [done|].
  destruct (p y) eqn:E; [by intros [= <-]|done].
Qed.

Lemma truthy_defined v : truthy v = true -> is_undefined v = false.
Proof. by destruct v. Qed.

Lemma id_matches_true q id : id_matches q id = true -> q = Some (Int id).
Proof. destruct q as [[n|]|]; simpl; try done. by intros ->%Z.eqb_eq. Qed.

(** C2, amended: truck and driver ids that are truthy and select available
    documents, a client check that passes, and a document the Shipment
    schema accepts. Then the answer is 201 and in the store left behind the
    truck is "Not Available" and the driver is "Not Available" with the
    truck's id as [assignedTruck]. *)
Theorem createShipment_assigns_truck_and_driver
    (b : Req.t) (w : World) (t : Truck.t) (d : Driver.t) :
  createShipment_errors b = [] ->
  truthy (Req.truckId b) = true ->
  truck_of (store w) (Req.truckId b) = Some t ->
  Truck.availabilityStatus t = "Available" ->
  truthy (Req.driverId b) = true ->
  driver_of (store w) (Req.driverId b) = Some d ->
  Driver.availabilityStatus d = "Available" ->
  client_passes (store w) (Req.clientId b) = true ->
  schema_accepts b = true ->
  exists w' shipment t' d',
    createShipment b w =
      (w', json 201 (WithShipment "Shipment created successfully." shipment))
    /\ truck_of (store w') (Req.truckId b) = Some t'
    /\ Truck.truckId t' = Truck.truckId t
    /\ Truck.availabilityStatus t' = "Not Available"
    /\ driver_of (store w') (Req.driverId b) = Some d'
    /\ Driver.driverId d' = Driver.driverId d
    /\ Driver.availabilityStatus d' = "Not Available"
    /\ Driver.assignedTruck d' = filter_of (Req.truckId b)
    /\ Driver.assignedTruck d' = Some (Int (Truck.truckId t)).
Proof.
  intros He Ht1 Ht2 Ht3 Hd1 Hd2 Hd3 Hcl Hsc.
  revert Ht2 Hd2 Hcl Hsc. run_valid b He. intros Ht2 Hd2 Hcl Hsc.
  pose proof (id_matches_true _ _ (find_first_Some _ _ _ Ht2)) as ->.
  rewrite Ht1, Hd1, (truthy_defined _ Ht1). simpl in *.
  rewrite Ht2, Ht3. simpl. rewrite Hd2, Hd3. simpl.
  repeat step.
  all: eexists _, _, _, _; split; [reflexivity|]; simpl.
  all: rewrite !find_first_update_first by done.
  all: rewrite Ht2, Hd2; simpl; split_and!; reflexivity.
Qed.

Lemma createShipment_created_inv (b : Req.t) (w : World) :
  status (createShipment b w).2 = 201 ->
  exists shipment,
    createShipment b w =
      ((createShipment b w).1,
       json 201 (WithShipment "Shipment created successfully." shipment)).
Proof.
  destruct (createShipment_errors b) eqn:He.
  - run_valid b He. repeat step; intros; simplify_eq; eauto.
  - unfold createShipment. rewrite He. simpl. done.
Qed.

Lemma createShipment_assignedTruck
    (b : Req.t) (w w' : World) (msg : string) (shipment : Shipment.t) :
  createShipment b w = (w', json 201 (WithShipment msg shipment)) ->
  truthy (Req.driverId b) = true ->
  exists d d',
    driver_of (store w) (Req.driverId b) = Some d
    /\ driver_of (store w') (Req.driverId b) = Some d'
    /\ (Req.truckId b = VUndef ->
        Driver.assignedTruck d' =
          (if omitUndefined then Driver.assignedTruck d else None))
    /\ (Req.truckId b <> VUndef ->
        exists n, filter_of (Req.truckId b) = Some n
                  /\ Driver.assignedTruck d' = Some n).
Proof.
  intros Hrun Hd1. revert Hrun.
  destruct (createShipment_errors b) eqn:He.
  2:{ unfold createShipment. rewrite He. simpl. by intros [= _ ?]. }
  pose proof He as Hnum. unfold createShipment_errors in Hnum.
  repeat (apply app_eq_nil in Hnum; destruct Hnum as [? Hnum]).
  assert (Htv : Req.truckId b = VUndef \/ isNumeric (Req.truckId b) = true)
    by by eapply run_optional_nil.
  run_valid b He. rewrite Hd1. simpl.
  match goal with |- _ -> ?G => set (Post := G) end.
  repeat step; intros [= <- _ _]; subst Post; simpl.
  all: rewrite find_first_update_first by done.
  all: match goal with Hf : find_first _ (drivers _) = Some _ |- _ => rewrite Hf end.
  all: eexists _, _; split; [reflexivity|].
  all: simpl; split; [reflexivity|]; split; intros Hv; try done.
  all: try by (destruct (Req.truckId b); simplify_eq).
  all: destruct Htv as [Hu|Htv]; [congruence|].
  all: destruct (isNumeric_cast _ Htv) as [x Hx].
  all: assert (qt = Some x) as -> by congruence; eauto.
Qed.

(** C7: after a successful creation whose [driverId] is truthy, the driver
    is found again in the store; its [assignedTruck] was not given a truck
    when the body has no [truckId] (it is what it was, or null, as the
    Mongoose version has it), and it is the cast [truckId] when the body
    has one. *)
Theorem createShipment_assignedTruck_iff_truck (b : Req.t) (w : World) :
  status (createShipment b w).2 = 201 ->
  truthy (Req.driverId b) = true ->
  exists d d',
    driver_of (store w) (Req.driverId b) = Some d
    /\ driver_of (store (createShipment b w).1) (Req.driverId b) = Some d'
    /\ (Req.truckId b = VUndef ->
        Driver.assignedTruck d' =
          (if omitUndefined then Driver.assignedTruck d else None))
    /\ (Req.truckId b <> VUndef ->
        exists n, filter_of (Req.truckId b) = Some n
                  /\ Driver.assignedTruck d' = Some n).
Proof.
  intros [shipment Hrun]%createShipment_created_inv Hd.
  exact (createShipment_assignedTruck b w _ _ shipment Hrun Hd).
Qed.

(** With neither id in the body no truck and no driver is written, however
    the request ends. *)
Lemma createShipment_without_refs_frame (b : Req.t) (w : World) :
  Req.truckId b = VUndef -> Req.driverId b = VUndef ->
  trucks (store (createShipment b w).1) = trucks (store w)
  /\ drivers (store (createShipment b w).1) = drivers (store w).
Proof.
  intros Htu Hdu. destruct (createShipment_errors b) eqn:He.
  - run_valid b He. rewrite Htu, Hdu. simpl. by repeat step.
  - unfold createShipment. by rewrite He.
Qed.

(** C9: a valid request (the chains pass, the client check passes, the
    schema accepts the document) with neither [truckId] nor [driverId] is
    answered 201; the shipment it inserts has status "pending" when the body
    has no [status] and the supplied one otherwise; no truck and no driver
    changes. *)
Theorem createShipment_without_refs (b : Req.t) (w : World) :
  createShipment_errors b = [] ->
  Req.truckId b = VUndef ->
  Req.driverId b = VUndef ->
  client_passes (store w) (Req.clientId b) = true ->
  schema_accepts b = true ->
  exists w' shipment,
    createShipment b w =
      (w', json 201 (WithShipment "Shipment created successfully." shipment))
    /\ shipments (store w') = (shipments (store w) ++ [shipment])%list
    /\ Shipment.status shipment =
         (if is_undefined (Req.status b) then Some "pending"
          else castString (Req.status b))
    /\ trucks (store w') = trucks (store w)
    /\ drivers (store w') = drivers (store w).
Proof.
  intros He Htu Hdu Hcl Hsc. revert Hcl Hsc.
  run_valid b He. rewrite Htu, Hdu. simpl.
  unfold Shipment_new. rewrite Hc. simpl.
  repeat step; intros; simplify_eq; eexists _, _; (split; [reflexivity|]);
    simpl; done.
Qed.

(** C10: the number 0 passes the numeric chains, and an id that is 0 is
    not truthy, so its check and its update are skipped. With [clientId]
    0 no client lookup is issued and the request succeeds when the other
    checks pass and the schema accepts the document; with [truckId] 0
    (or [driverId] 0) no truck (driver) lookup and no truck (driver) update
    is issued, and the collection is left as it was. *)
Theorem createShipment_zero_id_skips_check (b : Req.t) (w : World) :
  createShipment_errors b = [] ->
  isNumeric (VNum 0) = true
  /\ exists evs,
    trace (createShipment b w).1 = (trace w ++ evs)%list
    /\ (Req.clientId b = VNum 0 ->
        (forall q, ~ In (EvFindOne Clients q) evs)
        /\ (truck_passes (store w) (Req.truckId b) = true ->
            driver_passes (store w) (Req.driverId b) = true ->
            schema_accepts b = true ->
            exists shipment,
              (createShipment b w).2 =
                json 201 (WithShipment "Shipment created successfully." shipment)))
    /\ (Req.truckId b = VNum 0 ->
        (forall q, ~ In (EvFindOne Trucks q) evs
                   /\ ~ In (EvUpdateOne Trucks q) evs)
        /\ trucks (store (createShipment b w).1) = trucks (store w))
    /\ (Req.driverId b = VNum 0 ->
        (forall q, ~ In (EvFindOne Drivers q) evs
                   /\ ~ In (EvUpdateOne Drivers q) evs)
        /\ drivers (store (createShipment b w).1) = drivers (store w)).
Proof.
  intros He. split; [done|]. run_valid b He.
  repeat step.
  all: eexists; split;
    [simpl; rewrite <- ?app_assoc; first [reflexivity | by rewrite app_nil_r]|].
  all: split_and!; intros Hz; rewrite Hz in *; simpl in *; try done.
  all: split; [intros q; simpl; intuition discriminate|]; try done.
  all: intros; simplify_eq; eauto.
Qed.

Lemma In_run (e : FieldError) opt f (chain : list check) v :
  In e (run opt f chain v) <->
  opt && is_undefined v = false
  /\ exists c, In c chain /\ c.1 v = false /\ e = {| path := f; msg := c.2 |}.
Proof.
  unfold run. destruct (opt && is_undefined v).
  - simpl. split; [done|]. by intros [? _].
  - rewrite in_flat_map. split.
    + intros (c & Hc & He). split; [done|]. exists c.
      destruct (c.1 v); simpl in He; [done|]. intuition.
    + intros (_ & c & Hc & Hv & ->). exists c. rewrite Hv. simpl. auto.
Qed.

Lemma createShipment_errors_In (e : FieldError) (b : Req.t) :
  In e (createShipment_errors b) ->
  exists g, path e = field_name g /\ violated g b = true.
Proof.
  unfold createShipment_errors. rewrite !in_app_iff.
  intros Hin.
  repeat (destruct Hin as [Hin|Hin]);
    apply In_run in Hin as (Ho & c & Hc & Hv & ->); simpl in Hc;
    repeat (destruct Hc as [<-|Hc]); try done; simpl in *.
  all: match goal with
       | |- exists g, ?n = field_name g /\ _ =>
           first [ exists F_clientId; split; [reflexivity|]
                 | exists F_shipmentName; split; [reflexivity|]
                 | exists F_pickupLocation; split; [reflexivity|]
                 | exists F_deliveryLocation; split; [reflexivity|]
                 | exists F_cargoType; split; [reflexivity|]
                 | exists F_cargoWeight; split; [reflexivity|]
                 | exists F_departureDate; split; [reflexivity|]
                 | exists F_arrivalDate; split; [reflexivity|]
                 | exists F_truckId; split; [reflexivity|]
                 | exists F_driverId; split; [reflexivity|] ]
       end.
  all: simpl; rewrite ?Ho, Hv, ?andb_false_r; done.
Qed.

Lemma violated_listed (g : field) (b : Req.t) :
  violated g b = true ->
  exists m, In {| path := field_name g; msg := m |} (createShipment_errors b).
Proof.
  unfold createShipment_errors.
  assert (Hone : forall opt f p m v,
            opt && is_undefined v = false -> p v = false ->
            In {| path := f; msg := m |} (run opt f [(p, m)] v)).
  { intros. apply In_run. split; [done|]. exists (p, m). simpl. auto. }
  assert (Htwo : forall f p1 m1 p2 m2 v,
            p1 v && p2 v = false ->
            exists m, In {| path := f; msg := m |}
                        (run false f [(p1, m1); (p2, m2)] v)).
  { intros f p1 m1 p2 m2 v Hv. destruct (p1 v) eqn:E1.
    - exists m2. apply In_run. split; [done|]. exists (p2, m2). simpl. auto.
    - exists m1. apply In_run. split; [done|]. exists (p1, m1). simpl. auto. }
  unfold createShipment_errors.
  destruct g; simpl; intros Hv.
  3-5: apply negb_true_iff in Hv;
    edestruct Htwo as [m Hm]; [exact Hv|]; exists m; rewrite !in_app_iff; eauto 12.
  1-5: apply negb_true_iff in Hv; eexists; rewrite !in_app_iff;
    eauto 12 using Hone.
  all: apply andb_true_iff in Hv as [Hs Hv];
    apply negb_true_iff in Hs, Hv; eexists; rewrite !in_app_iff.
  - do 8 right; left. apply Hone; [by rewrite Hs|done].
  - do 9 right. apply Hone; [by rewrite Hs|done].
Qed.

(** C4, amended: when one of the ten validated fields violates its
    constraint the answer is 400 with the aggregated list, and nothing
    else happened: the store and the trace are as they were. The list names
    a field exactly when that field violates its constraint. *)
Theorem createShipment_rejects_invalid_fields (b : Req.t) (w : World) (f : field) :
  violated f b = true ->
  createShipment b w = (w, json 400 (Errors (createShipment_errors b)))
  /\ (forall g,
        violated g b = true <->
        exists m, In {| path := field_name g; msg := m |} (createShipment_errors b))
  /\ (forall e, In e (createShipment_errors b) ->
        exists g, path e = field_name g).
Proof.
  intros Hf. split_and!.
  - destruct (violated_listed f b Hf) as [m Hm].
    unfold createShipment.
    destruct (createShipment_errors b); [done|reflexivity].
  - intros g. split; [apply violated_listed|].
    intros [m (g' & Hg' & Hv)%createShipment_errors_In]. simpl in Hg'.
    by destruct g, g'.
  - intros e (g & Hg & _)%createShipment_errors_In. eauto.
Qed.

End CreateShipment.

(** ** The sequence generator and the Bill hook *)

Lemma Counter_next_eq (key : string) (w : World) :
  Counter_next key w =
    (let n := default 0 (counters (store w) !! key) + 1 in
     ({| store := with_counters (<[key := n]> (counters (store w))) (store w);
         trace := trace w ++ [EvCounter key] |},
      Val n)).
Proof. reflexivity. Qed.

Lemma Counter_calls_from (key : string) (n : nat) (w : World) :
  (Counter_calls key n w).2 =
    Val (map (fun i => default 0 (counters (store w) !! key) + Z.of_nat i)
           (seq 1 n)).
Proof.
  revert w. induction n as [|n IH]; intros w; [done|].
  simpl. unfold bind at 1. rewrite Counter_next_eq. simpl.
  unfold bind at 1.
  specialize (IH {|
    store := with_counters
               (<[key := default 0 (counters (store w) !! key) + 1]>
                  (counters (store w))) (store w);
    trace := trace w ++ [EvCounter key] |}).
  destruct (Counter_calls key n _) as [w' r]. simpl in IH. subst r.
  unfold ret. simpl. rewrite lookup_insert_eq. simpl.
  f_equal. f_equal. rewrite <- (seq_shift n 1), map_map.
  apply map_ext. intros i. lia.
Qed.

Lemma shifted_seq_increasing (base : Z) (a n : nat) :
  StronglySorted Z.lt (map (fun i => base + Z.of_nat i) (seq a n)).
Proof.
  revert a. induction n as [|n IH]; intros a; simpl; constructor; [apply IH|].
  apply List.Forall_forall. intros x (i & <- & Hi)%in_map_iff.
  apply in_seq in Hi. lia.
Qed.

(** C6: the first request for a key yields 1; a request yields the stored
    value plus 1 and stores what it yields, leaving the other keys alone;
    [n] successive requests on a fresh key yield 1, 2, ..., [n], and from
    any store they yield a strictly increasing list. The Bill hook makes one
    request for the "billId" sequence when the document is new, and the
    [billId] of the document it hands on is the value that request yields,
    the other paths being kept; it leaves a document that is not new, and
    the counters, as they are. *)
Theorem sequence_generator_next (key : string) (w : World) :
  (counters (store w) !! key = None -> (Counter_next key w).2 = Val 1)
  /\ (forall n, counters (store w) !! key = Some n ->
       (Counter_next key w).2 = Val (n + 1))
  /\ (forall n, (Counter_next key w).2 = Val n ->
       counters (store (Counter_next key w).1) !! key = Some n
       /\ forall key', key' <> key ->
            counters (store (Counter_next key w).1) !! key'
            = counters (store w) !! key')
  /\ (forall n, counters (store w) !! key = None ->
       (Counter_calls key n w).2 = Val (map Z.of_nat (seq 1 n)))
  /\ (forall n, exists xs,
       (Counter_calls key n w).2 = Val xs /\ StronglySorted Z.lt xs)
  /\ (forall this, Bill.isNew this = true ->
       exists saved,
         bill_pre_save this w = ((Counter_next "billId" w).1, Val saved)
         /\ (Counter_next "billId" w).2 = Val (Bill.billId saved)
         /\ Bill.billId saved = default 0 (counters (store w) !! "billId") + 1
         /\ Bill.isNew saved = Bill.isNew this
         /\ Bill.fields saved = Bill.fields this)
  /\ (forall this, Bill.isNew this = false ->
       bill_pre_save this w = (w, Val this)).
Proof.
  split_and!.
  - intros Hk. rewrite Counter_next_eq. simpl. by rewrite Hk.
  - intros n Hk. rewrite Counter_next_eq. simpl. by rewrite Hk.
  - intros n. rewrite Counter_next_eq. simpl. intros [= <-]. split.
    + apply lookup_insert_eq.
    + intros key' Hne. by apply lookup_insert_ne.
  - intros n Hk. by rewrite Counter_calls_from, Hk.
  - intros n. eexists. split; [apply Counter_calls_from|].
    apply shifted_seq_increasing.
  - intros this Hnew. unfold bill_pre_save. rewrite Hnew.
    unfold catch, bind, ret. rewrite Counter_next_eq. simpl.
    eexists. split_and!; try reflexivity. exact Hnew.
  - intros this Hnew. unfold bill_pre_save. by rewrite Hnew.
Qed.

(** ** getAllShipments *)

Section GetAllShipments.
Context `{External}.
Import ShipmentController.

Lemma Promise_all_rejected {A B} (f : A -> exn + B) (l : list A) (x : A) (e : exn) :
  In x l -> f x = inl e -> exists e', Promise_all (map f l) = inl e'.
Proof.
  induction l as [|y r IH]; simpl; [done|].
  intros [->|Hin] Hx.
  - rewrite Hx. eauto.
  - destruct (f y); [eauto|].
    destruct (IH Hin Hx) as [e' ->]. eauto.
Qed.

Lemma Promise_all_fulfilled {A B} (f : A -> exn + B) (l : list A) :
  (forall x, In x l -> exists y, f x = inr y) ->
  exists ys, Promise_all (map f l) = inr ys
             /\ Forall2 (fun x y => f x = inr y) l ys.
Proof.
  induction l as [|x r IH]; simpl; intros Hall.
  - exists []. split; [done|constructor].
  - destruct (Hall x) as [y Hy]; [by left|].
    destruct IH as (ys & Hys & HF); [intros; apply Hall; by right|].
    rewrite Hy, Hys. exists (y :: ys). split; [done|]. by constructor.
Qed.

Lemma populate_inv (s : Store) (shipment : Shipment.t) (p : Populated) :
  populate s shipment = inr p ->
  p_shipment p = shipment
  /\ p_truck p = truck_for s shipment
  /\ p_driver p = driver_for s shipment
  /\ exists client, client_for s shipment = Some client
                    /\ p_clientName p = Client.clientName client.
Proof.
  unfold populate, truck_for, driver_for, client_for.
  destruct (find_first _ (clients s)) as [c|]; [|done].
  intros [= <-]. simpl. split_and!; eauto.
Qed.

(** C8: when some stored shipment has a [clientId] that selects no client,
    [getAllShipments] throws on [client.clientName] and answers 500; when
    every shipment selects a client the answer is 200 with one entry per
    shipment, in order, each the shipment with the truck and the driver
    its ids select and the name of its client. *)
Theorem getAllShipments_clientName (w : World) :
  ((exists shipment,
      In shipment (shipments (store w))
      /\ client_for (store w) shipment = None) ->
   getAllShipments w = (w, internal_error))
  /\ ((forall shipment,
         In shipment (shipments (store w)) ->
         client_for (store w) shipment <> None) ->
      exists l,
        getAllShipments w = (w, json 200 (ShipmentList l))
        /\ Forall2
             (fun shipment p =>
                p_shipment p = shipment
                /\ p_truck p = truck_for (store w) shipment
                /\ p_driver p = driver_for (store w) shipment
                /\ exists client,
                     client_for (store w) shipment = Some client
                     /\ p_clientName p = Client.clientName client)
             (shipments (store w)) l).
Proof.
  unfold getAllShipments, try_catch, bind, get_store, cast, return_, throw.
  split.
  - intros (shipment & Hin & Hnone).
    destruct (Promise_all_rejected (populate (store w)) _ shipment TypeError Hin)
      as [e' ->]; [|done].
    unfold populate, client_for in *. by rewrite Hnone.
  - intros Hall.
    destruct (Promise_all_fulfilled (populate (store w)) (shipments (store w)))
      as (l & -> & HF).
    + intros shipment Hin. specialize (Hall shipment Hin).
      unfold populate, client_for in *.
      destruct (find_first _ (clients (store w))); [eauto|done].
    + exists l. split; [done|].
      eapply Forall2_impl; [exact HF|]. intros. by apply populate_inv.
Qed.

End GetAllShipments.

(** ** Absent targets *)

Section AbsentTargets.
Context `{External}.

(** C5: with no shipment (driver) for the id, [updateShipment],
    [getDriverById] and [updateDriverById] read a property of the [null]
    the query returned before they test it, and answer 500, not 404. *)
Theorem absent_target_answers_500 (w : World) :
  (forall id b,
     ShipmentController.updateShipment_errors b = [] ->
     shipment_with (store w) id = None ->
     (ShipmentController.updateShipment id b w).2
     = json 500 (Error "An internal server error occurred."))
  /\ (forall driverId,
        DriverController.driverId_errors driverId = [] ->
        driver_of (store w) (VStr driverId) = None ->
        (DriverController.getDriverById driverId w).2
        = json 500 (Error "An internal server error occurred."))
  /\ (forall driverId b,
        DriverController.updateDriverById_errors driverId b = [] ->
        driver_of (store w) (VStr driverId) = None ->
        (DriverController.updateDriverById driverId b w).2
        = json 500 (Error "An internal server error occurred.")).
Proof.
  unfold shipment_with, driver_of, filter_of.
  split_and!.
  - intros id b He.
    unfold ShipmentController.updateShipment. rewrite He.
    destruct (castNumber (VStr id)) as [e|q]; [done|]. intros Hnone.
    unfold try_catch, Shipment_findOneAndUpdate, member, bind, cast, log,
      get_store, throw, ret. simpl.
    by rewrite Hnone.
  - intros driverId He.
    unfold DriverController.getDriverById. rewrite He.
    destruct (castNumber (VStr driverId)) as [e|q]; [done|]. intros Hnone.
    unfold try_catch, Driver_findOne, member, bind, cast, log, get_store,
      throw, ret. simpl.
    by rewrite Hnone.
  - intros driverId b He.
    unfold DriverController.updateDriverById. rewrite He.
    destruct (castNumber (VStr driverId)) as [e|q]; [done|]. intros Hnone.
    unfold try_catch, Driver_findOneAndUpdate, member, bind, cast, log,
      get_store, throw, ret. simpl.
    by rewrite Hnone.
Qed.

(** The handlers that test the result first do answer 404. *)
Lemma tested_first_answers_404 (w : World) (id : string) (q : option num) :
  castNumber (VStr id) = inr q ->
  (shipment_with (store w) id = None ->
   (ShipmentController.getShipmentById id w).2
   = json 404 (Error "Shipment not found.")
   /\ (ShipmentController.deleteShipment id w).2
      = json 404 (Error "Shipment not found."))
  /\ (DriverController.driverId_errors id = [] ->
      driver_of (store w) (VStr id) = None ->
      (DriverController.deleteDriverById id w).2
      = json 404 (Error "Driver not found.")).
Proof.
  intros Hq. unfold shipment_with, driver_of, filter_of.
  split.
  - unfold ShipmentController.getShipmentById, ShipmentController.deleteShipment.
    rewrite Hq. intros Hnone.
    unfold try_catch, Shipment_findOne, Shipment_findOneAndDelete, bind, cast,
      log, get_store, modify_store, ret, return_. simpl.
    by rewrite Hnone.
  - intros He. unfold DriverController.deleteDriverById. rewrite He, Hq.
    intros Hnone.
    unfold try_catch, Driver_findOneAndDelete, bind, cast, log,
      get_store, modify_store, ret, return_. simpl.
    by rewrite Hnone.
Qed.

End AbsentTargets.

(** * The statements on the reference store *)

Import Reference.
Import ShipmentController.

(** Truck 9, driver 9 and client 9 do not exist; truck 2 and driver 2 are
    not available. *)
Lemma createShipment_checks_in_order_witness :
  createShipment (with_refs (VNum 1) (VNum 9) (VNum 9) body0) world0
    = (after world0 [EvFindOne Trucks (Some (Int 9))],
       json 400 (Failure "Invalid Truck ID. Truck does not exist."))
  /\ createShipment (with_refs (VNum 9) (VNum 2) (VNum 2) body0) world0
    = (after world0 [EvFindOne Trucks (Some (Int 2))],
       json 400 (Failure "Truck is not available."))
  /\ createShipment (with_refs (VNum 9) (VNum 1) (VNum 9) body0) world0
    = (after world0 [EvFindOne Trucks (Some (Int 1));
                     EvFindOne Drivers (Some (Int 9))],
       json 400 (Failure "Invalid Driver ID. Driver does not exist."))
  /\ createShipment (with_refs (VNum 9) VUndef (VNum 2) body0) world0
    = (after world0 [EvFindOne Drivers (Some (Int 2))],
       json 400 (Failure "Driver is not available."))
  /\ createShipment (with_refs (VNum 9) (VNum 1) (VNum 1) body0) world0
    = (after world0 [EvFindOne Trucks (Some (Int 1));
                     EvFindOne Drivers (Some (Int 1));
                     EvFindOne Clients (Some (Int 9))],
       json 400 (Failure "Invalid Client ID. Client does not exist.")).
Proof.
  split_and!.
  - apply (createShipment_checks_in_order (H := ref)
             (with_refs (VNum 1) (VNum 9) (VNum 9) body0) world0);
      vm_compute; reflexivity.
  - apply (createShipment_checks_in_order (H := ref)
             (with_refs (VNum 9) (VNum 2) (VNum 2) body0) world0
             ltac:(vm_compute; reflexivity)) with (t := truck2);
      vm_compute; (reflexivity || discriminate).
  - apply (createShipment_checks_in_order (H := ref)
             (with_refs (VNum 9) (VNum 1) (VNum 9) body0) world0);
      vm_compute; reflexivity.
  - apply (createShipment_checks_in_order (H := ref)
             (with_refs (VNum 9) VUndef (VNum 2) body0) world0
             ltac:(vm_compute; reflexivity)) with (d := driver2);
      vm_compute; (reflexivity || discriminate).
  - apply (createShipment_checks_in_order (H := ref)
             (with_refs (VNum 9) (VNum 1) (VNum 1) body0) world0);
      vm_compute; reflexivity.
Defined.

(** A status outside the enum passes the chains, every check passes, and
    the answer is 500 with nothing written. And in a store where a truck
    has the id 0, a request for truck 0 succeeds and leaves that truck
    "Available". *)
Lemma createShipment_assignment_counterexample :
  (let b := with_status (VStr "shipped") VUndef
              (with_refs (VNum 1) (VNum 1) (VNum 1) body0) in
   createShipment_errors b = []
   /\ truck_of store0 (Req.truckId b) = Some truck1
   /\ Truck.availabilityStatus truck1 = "Available"
   /\ driver_of store0 (Req.driverId b) = Some driver1
   /\ Driver.availabilityStatus driver1 = "Available"
   /\ client_of store0 (Req.clientId b) = Some client1
   /\ (createShipment b world0).2
      = json 500 (Error "An internal server error occurred.")
   /\ store (createShipment b world0).1 = store0)
  /\ (let b := with_refs (VNum 1) (VNum 0) (VNum 1) body0 in
      createShipment_errors b = []
      /\ truck_of store_zero (Req.truckId b) = Some truck0
      /\ Truck.availabilityStatus truck0 = "Available"
      /\ driver_of store_zero (Req.driverId b) = Some driver1
      /\ Driver.availabilityStatus driver1 = "Available"
      /\ client_of store_zero (Req.clientId b) = Some client1
      /\ status (createShipment b world_zero).2 = 201
      /\ truck_of (store (createShipment b world_zero).1) (Req.truckId b)
         = Some truck0).
Proof. vm_compute. split_and!; reflexivity. Qed.

Lemma createShipment_assigns_truck_and_driver_witness :
  let b := with_refs (VNum 1) (VNum 1) (VNum 1) body0 in
  exists w' shipment t' d',
    createShipment b world0 =
      (w', json 201 (WithShipment "Shipment created successfully." shipment))
    /\ truck_of (store w') (Req.truckId b) = Some t'
    /\ Truck.truckId t' = Truck.truckId truck1
    /\ Truck.availabilityStatus t' = "Not Available"
    /\ driver_of (store w') (Req.driverId b) = Some d'
    /\ Driver.driverId d' = Driver.driverId driver1
    /\ Driver.availabilityStatus d' = "Not Available"
    /\ Driver.assignedTruck d' = filter_of (Req.truckId b)
    /\ Driver.assignedTruck d' = Some (Int (Truck.truckId truck1)).
Proof.
  apply (createShipment_assigns_truck_and_driver (H := ref)
           (with_refs (VNum 1) (VNum 1) (VNum 1) body0) world0 truck1 driver1);
    vm_compute; reflexivity.
Defined.

Lemma createShipment_failed_check_leaves_store_witness :
  exists m evs,
    createShipment (with_refs (VNum 1) (VNum 2) (VNum 1) body0) world0
    = (after world0 evs, json 400 (Failure m)).
Proof.
  apply (createShipment_failed_check_leaves_store (H := ref));
    vm_compute; reflexivity.
Defined.

(** A number as [specialInstructions] is accepted and the shipment is
    created; a status outside the enum passes the chains, and the request
    goes on to the client lookup. *)
Lemma createShipment_unvalidated_fields_counterexample :
  (let b := with_status VUndef (VNum 5) body0 in
   createShipment_errors b = []
   /\ status (createShipment b world0).2 = 201
   /\ trace (createShipment b world0).1
      = [EvFindOne Clients (Some (Int 1)); EvCounter "shipmentId";
         EvInsert Shipments])
  /\ (let b := with_status (VStr "shipped") VUndef body0 in
      createShipment_errors b = []
      /\ createShipment b world0
         = (after world0 [EvFindOne Clients (Some (Int 1))],
            json 500 (Error "An internal server error occurred."))).
Proof. vm_compute. split_and!; reflexivity. Qed.

(** The scenario of the spec: [cargoWeight] -5. *)
Lemma createShipment_rejects_invalid_fields_witness :
  let b := with_cargoWeight (VNum (-5)) body0 in
  violated F_cargoWeight b = true
  /\ createShipment b world0
     = (world0,
        json 400 (Errors [{| path := "cargoWeight";
                             msg := "Cargo weight must be a positive number." |}]))
  /\ (forall g,
        violated g b = true <->
        exists m, In {| path := field_name g; msg := m |} (createShipment_errors b))
  /\ (forall e, In e (createShipment_errors b) -> exists g, path e = field_name g).
Proof.
  split; [vm_compute; reflexivity|].
  apply (createShipment_rejects_invalid_fields (H := ref)
           (with_cargoWeight (VNum (-5)) body0) world0 F_cargoWeight).
  vm_compute; reflexivity.
Defined.

Lemma absent_target_answers_500_witness :
  (updateShipment "99" no_fields world0).2
  = json 500 (Error "An internal server error occurred.")
  /\ (DriverController.getDriverById "99" world0).2
     = json 500 (Error "An internal server error occurred.")
  /\ (DriverController.updateDriverById "99" no_driver_fields world0).2
     = json 500 (Error "An internal server error occurred.").
Proof.
  destruct (absent_target_answers_500 (H := ref) world0) as (H1 & H2 & H3).
  split_and!; [apply H1|apply H2|apply H3]; vm_compute; reflexivity.
Defined.

(** The handlers that test first, on the same id. *)
Example absent_target_siblings :
  (getShipmentById "99" world0).2 = json 404 (Error "Shipment not found.")
  /\ (deleteShipment "99" world0).2 = json 404 (Error "Shipment not found.")
  /\ (DriverController.deleteDriverById "99" world0).2
     = json 404 (Error "Driver not found.").
Proof. vm_compute. split_and!; reflexivity. Qed.

Lemma sequence_generator_next_witness :
  (Counter_next "billId" world0).2 = Val 1
  /\ (Counter_next "billId" (Counter_next "billId" world0).1).2 = Val 2
  /\ (Counter_calls "billId" 4 world0).2 = Val [1; 2; 3; 4]
  /\ (exists saved,
        (bill_pre_save bill0 world0).2 = Val saved
        /\ Bill.billId bill0 = 0 /\ Bill.billId saved = 1)
  /\ (exists saved2,
        (bill_pre_save bill0 (bill_pre_save bill0 world0).1).2 = Val saved2
        /\ Bill.billId saved2 = 2).
Proof.
  destruct (sequence_generator_next "billId" world0)
    as (H1 & _ & _ & H4 & _ & H5 & _).
  destruct (sequence_generator_next "billId" (Counter_next "billId" world0).1)
    as (_ & H2 & _ & _ & _ & H6 & _).
  split_and!.
  - apply H1. vm_compute; reflexivity.
  - apply (H2 1). vm_compute; reflexivity.
  - apply (H4 4%nat). vm_compute; reflexivity.
  - destruct (H5 bill0) as (saved & Heq & _ & Hid & _); [reflexivity|].
    exists saved. rewrite Heq. split_and!; [reflexivity|reflexivity|].
    rewrite Hid. reflexivity.
  - destruct (H6 bill0) as (saved & Heq & _ & Hid & _); [reflexivity|].
    exists saved. split.
    + exact (f_equal snd Heq).
    + rewrite Hid. reflexivity.
Defined.

(** Driver 3 has truck 7 as [assignedTruck]; a shipment without a truck
    leaves it there. *)
Lemma createShipment_assignedTruck_iff_truck_witness :
  let b := with_refs (VNum 1) VUndef (VNum 3) body0 in
  exists d d',
    driver_of store0 (Req.driverId b) = Some d
    /\ driver_of (store (createShipment b world0).1) (Req.driverId b) = Some d'
    /\ (Req.truckId b = VUndef ->
        Driver.assignedTruck d' =
          (if omitUndefined then Driver.assignedTruck d else None))
    /\ (Req.truckId b <> VUndef ->
        exists n, filter_of (Req.truckId b) = Some n
                  /\ Driver.assignedTruck d' = Some n).
Proof.
  apply (createShipment_assignedTruck_iff_truck (H := ref)
           (with_refs (VNum 1) VUndef (VNum 3) body0) world0);
    vm_compute; reflexivity.
Defined.

(** The same request under either treatment of [undefined]. *)
Example createShipment_without_truck_assignedTruck :
  let b := with_refs (VNum 1) VUndef (VNum 3) body0 in
  (Driver.assignedTruck <$>
     driver_of (store (@createShipment ref b world0).1) (VNum 3))
  = Some (Some (Int 7))
  /\ (Driver.assignedTruck <$>
        driver_of (store (@createShipment ref5 b world0).1) (VNum 3))
     = Some None.
Proof. vm_compute. split; reflexivity. Qed.

Lemma getAllShipments_clientName_witness :
  getAllShipments world_orphan
  = (world_orphan, json 500 (Error "An internal server error occurred."))
  /\ exists l,
       getAllShipments world_listed = (world_listed, json 200 (ShipmentList l))
       /\ Forall2
            (fun shipment p =>
               p_shipment p = shipment
               /\ p_truck p = truck_for (store world_listed) shipment
               /\ p_driver p = driver_for (store world_listed) shipment
               /\ exists client,
                    client_for (store world_listed) shipment = Some client
                    /\ p_clientName p = Client.clientName client)
            (shipments (store world_listed)) l.
Proof.
  split.
  - apply (getAllShipments_clientName world_orphan).
    exists (shipment_of_client 2 9). split; [|reflexivity].
    right; left; reflexivity.
  - apply (getAllShipments_clientName world_listed).
    intros shipment [<-|[]]. vm_compute. discriminate.
Defined.

Lemma createShipment_without_refs_witness :
  exists w' shipment,
    createShipment body0 world0 =
      (w', json 201 (WithShipment "Shipment created successfully." shipment))
    /\ shipments (store w') = (shipments (store world0) ++ [shipment])%list
    /\ Shipment.status shipment =
         (if is_undefined (Req.status body0) then Some "pending"
          else castString (Req.status body0))
    /\ trucks (store w') = trucks (store world0)
    /\ drivers (store w') = drivers (store world0).
Proof.
  apply (createShipment_without_refs (H := ref) body0 world0);
    vm_compute; reflexivity.
Defined.

(** A supplied status is the one stored. *)
Example createShipment_supplied_status :
  exists w' shipment,
    createShipment (with_status (VStr "delivered") VUndef body0) world0 =
      (w', json 201 (WithShipment "Shipment created successfully." shipment))
    /\ Shipment.status shipment = Some "delivered".
Proof. eexists _, _. vm_compute. split; reflexivity. Qed.

Lemma createShipment_zero_id_skips_check_witness :
  let b := with_refs (VNum 0) (VNum 0) (VNum 0) body0 in
  createShipment_errors b = []
  /\ status (createShipment b world0).2 = 201
  /\ trace (createShipment b world0).1 = [EvCounter "shipmentId"; EvInsert Shipments]
  /\ isNumeric (VNum 0) = true
  /\ exists evs,
       trace (createShipment b world0).1 = (trace world0 ++ evs)%list
       /\ (Req.clientId b = VNum 0 ->
           (forall q, ~ In (EvFindOne Clients q) evs)
           /\ (truck_passes (store world0) (Req.truckId b) = true ->
               driver_passes (store world0) (Req.driverId b) = true ->
               schema_accepts b = true ->
               exists shipment,
                 (createShipment b world0).2 =
                   json 201 (WithShipment "Shipment created successfully." shipment)))
       /\ (Req.truckId b = VNum 0 ->
           (forall q, ~ In (EvFindOne Trucks q) evs
                      /\ ~ In (EvUpdateOne Trucks q) evs)
           /\ trucks (store (createShipment b world0).1) = trucks (store world0))
       /\ (Req.driverId b = VNum 0 ->
           (forall q, ~ In (EvFindOne Drivers q) evs
                      /\ ~ In (EvUpdateOne Drivers q) evs)
           /\ drivers (store (createShipment b world0).1) = drivers (store world0)).
Proof.
  split; [vm_compute; reflexivity|].
  split; [vm_compute; reflexivity|].
  split; [vm_compute; reflexivity|].
  apply (createShipment_zero_id_skips_check (H := ref)
           (with_refs (VNum 0) (VNum 0) (VNum 0) body0) world0).
  vm_compute; reflexivity.
Defined.

(** * Further properties *)

(** ** Running createShipment *)

Ltac unfold_createShipment :=
  unfold createShipment, try_catch, Shipment_save, Truck_updateOne,
    Driver_updateOne, set_value, Truck_findOne, Driver_findOne,
    Client_findOne, Counter_next, bind, ret, return_, throw, cast, log,
    get_store, modify_store.

Ltac unfold_statement :=
  unfold truck_passes, driver_passes, client_passes, truck_of, driver_of,
    client_of, lookup, filter_of, after, schema_accepts, shipment_of in *.

(** Runs the handler on a body that passed the chains. *)
Ltac run_checked b He :=
  let qc := fresh "qc" in let qt := fresh "qt" in let qd := fresh "qd" in
  let Hc := fresh "Hc" in let Ht := fresh "Ht" in let Hd := fresh "Hd" in
  destruct (createShipment_errors_nil b He) as ([qc Hc] & [qt Ht] & [qd Hd]);
  unfold_statement; unfold_createShipment; rewrite He; simpl;
  rewrite ?Hc, ?Ht, ?Hd in *; simpl in *.

(** Splits on the next test of the handler. *)
Ltac next_test :=
  match goal with
  | |- context [truthy ?v] => destruct (truthy v) eqn:?
  | |- context [is_undefined ?v] => destruct (is_undefined v) eqn:?
  | |- context [find_first ?p ?l] => destruct (find_first p l) eqn:?
  | |- context [String.eqb ?a ?b] => destruct (String.eqb a b) eqn:?
  | |- context [Shipment_new ?a ?b ?c ?d ?e ?f ?g ?h ?i ?j ?k ?l] =>
      destruct (Shipment_new a b c d e f g h i j k l) eqn:?
  | |- context [shipmentSchema ?d] => destruct (shipmentSchema d) eqn:?
  | |- context [@omitUndefined ?E] => destruct (@omitUndefined E) eqn:?
  end; simpl in *; simplify_eq.

Lemma Forall2_refl {A} (R : A -> A -> Prop) (l : list A) :
  (forall x, R x x) -> Forall2 R l l.
Proof. intros HR. induction l; constructor; auto. Qed.

Lemma update_first_Forall2 {A} (R : A -> A -> Prop) (p : A -> bool) (f : A -> A)
    (l : list A) :
  (forall x, R x x) -> (forall x, R x (f x)) ->
  Forall2 R l (update_first p f l).
Proof.
  intros HR Hf. induction l as [|x r IH]; simpl; [constructor|].
  destruct (p x); constructor; auto using Forall2_refl.
Qed.

Section CreateShipmentMore.
Context `{External}.

(** X1: whatever the request and however it ends, [createShipment] keeps
    every truck and every driver in place, each one as it was or taken
    ("Not Available"); it never makes one available again, never touches a
    client, and at most appends one shipment. *)
Theorem createShipment_only_takes (b : Req.t) (w : World) :
  Forall2 truck_kept_or_taken
    (trucks (store w)) (trucks (store (createShipment b w).1))
  /\ Forall2 driver_kept_or_taken
       (drivers (store w)) (drivers (store (createShipment b w).1))
  /\ clients (store (createShipment b w).1) = clients (store w)
  /\ (shipments (store (createShipment b w).1) = shipments (store w)
      \/ exists shipment,
           shipments (store (createShipment b w).1)
           = (shipments (store w) ++ [shipment])%list).
Proof.
  assert (Ht : forall p l,
    Forall2 truck_kept_or_taken l
      (update_first p (Truck.set_availabilityStatus "Not Available") l)).
  { intros. apply update_first_Forall2; unfold truck_kept_or_taken; auto. }
  assert (Ht0 : forall l, Forall2 truck_kept_or_taken l l).
  { intros. apply Forall2_refl. by left. }
  assert (Hd0 : forall l, Forall2 driver_kept_or_taken l l).
  { intros. apply Forall2_refl. by left. }
  destruct (createShipment_errors b) eqn:He.
  - run_checked b He. repeat next_test; split_and!; eauto.
    all: apply update_first_Forall2; unfold driver_kept_or_taken; auto.
  - unfold createShipment. rewrite He. simpl. split_and!; eauto.
Qed.

Lemma createShipment_status_table (b : Req.t) (w : World) :
  let r := (createShipment b w).2 in
  let checks :=
    truck_passes (store w) (Req.truckId b)
    && driver_passes (store w) (Req.driverId b)
    && client_passes (store w) (Req.clientId b) in
  (status r = 201 <->
   createShipment_errors b = [] /\ checks = true /\ schema_accepts b = true)
  /\ (status r = 500 <->
      createShipment_errors b = [] /\ checks = true /\ schema_accepts b = false)
  /\ (status r = 400 <-> createShipment_errors b <> [] \/ checks = false).
Proof.
  destruct (createShipment_errors b) eqn:He.
  - run_checked b He.
    repeat next_test; split_and!; split; intros; simplify_eq; intuition congruence.
  - unfold createShipment. rewrite He. simpl.
    split_and!; split; intros; simplify_eq; intuition congruence.
Qed.

(** X2: the status code of [createShipment] is 201 exactly when the chains
    pass, the three checks pass and the schema accepts the document; 500
    exactly when all of these hold but the last; 400 otherwise. *)
Theorem createShipment_status (b : Req.t) (w : World) :
  let r := (createShipment b w).2 in
  let checks :=
    truck_passes (store w) (Req.truckId b)
    && driver_passes (store w) (Req.driverId b)
    && client_passes (store w) (Req.clientId b) in
  (status r = 201 <->
   createShipment_errors b = [] /\ checks = true /\ schema_accepts b = true)
  /\ (status r = 500 <->
      createShipment_errors b = [] /\ checks = true /\ schema_accepts b = false)
  /\ (status r = 400 <-> createShipment_errors b <> [] \/ checks = false).
Proof. exact (createShipment_status_table b w). Qed.

(** A truck or a driver that is found and not available ends the request. *)
Lemma createShipment_truck_taken (b : Req.t) (w : World) (t : Truck.t) :
  createShipment_errors b = [] ->
  truthy (Req.truckId b) = true ->
  truck_of (store w) (Req.truckId b) = Some t ->
  Truck.availabilityStatus t <> "Available" ->
  createShipment b w =
    (after w [EvFindOne Trucks (filter_of (Req.truckId b))],
     json 400 (Failure "Truck is not available.")).
Proof.
  intros He Ht1 Ht2 Ht3%eqb_Available. revert Ht2.
  run_checked b He. intros Ht2. by repeat next_test.
Qed.

Lemma createShipment_driver_taken (b : Req.t) (w : World) (d : Driver.t) :
  createShipment_errors b = [] ->
  truthy (Req.truckId b) = false ->
  truthy (Req.driverId b) = true ->
  driver_of (store w) (Req.driverId b) = Some d ->
  Driver.availabilityStatus d <> "Available" ->
  createShipment b w =
    (after w [EvFindOne Drivers (filter_of (Req.driverId b))],
     json 400 (Failure "Driver is not available.")).
Proof.
  intros He Ht1 Hd1 Hd2 Hd3%eqb_Available. revert Hd2.
  run_checked b He. intros Hd2. by repeat next_test.
Qed.

End CreateShipmentMore.

Section CreateShipmentTwice.
Context `{External}.

(** What a successful [createShipment] leaves in the store. *)
Lemma createShipment_success_store
    (b : Req.t) (w w' : World) (msg : string) (shipment : Shipment.t) :
  createShipment b w = (w', json 201 (WithShipment msg shipment)) ->
  createShipment_errors b = []
  /\ clients (store w') = clients (store w)
  /\ shipments (store w') = (shipments (store w) ++ [shipment])%list
  /\ trucks (store w') =
       (if truthy (Req.truckId b)
        then update_first
               (fun d => id_matches (filter_of (Req.truckId b)) (Truck.truckId d))
               (Truck.set_availabilityStatus "Not Available") (trucks (store w))
        else trucks (store w))
  /\ (truthy (Req.truckId b) = true ->
      exists t, truck_of (store w) (Req.truckId b) = Some t
                /\ Truck.availabilityStatus t = "Available")
  /\ (exists f,
        (forall x, Driver.availabilityStatus (f x) = "Not Available"
                   /\ Driver.driverId (f x) = Driver.driverId x)
        /\ drivers (store w') =
             (if truthy (Req.driverId b)
              then update_first
                     (fun d => id_matches (filter_of (Req.driverId b))
                                 (Driver.driverId d))
                     f (drivers (store w))
              else drivers (store w)))
  /\ (truthy (Req.driverId b) = true ->
      exists d, driver_of (store w) (Req.driverId b) = Some d
                /\ Driver.availabilityStatus d = "Available").
Proof.
  destruct (createShipment_errors b) eqn:He.
  2:{ unfold createShipment. rewrite He. simpl. by intros [= _ ?]. }
  intros Hrun. split; [done|]. revert Hrun.
  run_checked b He.
  match goal with |- _ -> ?G => set (Post := G) end.
  repeat next_test; intros [= <- _ <-]; subst Post; simpl.
  all: repeat match goal with
              | E : truthy _ = _ |- _ => rewrite E
              | E : find_first _ _ = _ |- _ => rewrite E
              end.
  all: split_and!; try done.
  all: try (eexists; split; [|reflexivity]; by intros []).
  all: try (intros _; eexists; split; [reflexivity|]; by apply String.eqb_eq).
  all: try (exists (Driver.set_availabilityStatus "Not Available"); split; [done|reflexivity]).
Qed.

(** X3: a request that succeeded, sent again as it is: it is refused with
    "Truck is not available." when it named a truck, with "Driver is not
    available." when it named a driver only, after that one lookup and with
    nothing written; with neither it succeeds again. *)
Theorem createShipment_replay (b : Req.t) (w : World) :
  status (createShipment b w).2 = 201 ->
  let w1 := (createShipment b w).1 in
  (truthy (Req.truckId b) = true ->
   createShipment b w1 =
     (after w1 [EvFindOne Trucks (filter_of (Req.truckId b))],
      json 400 (Failure "Truck is not available.")))
  /\ (truthy (Req.truckId b) = false -> truthy (Req.driverId b) = true ->
      createShipment b w1 =
        (after w1 [EvFindOne Drivers (filter_of (Req.driverId b))],
         json 400 (Failure "Driver is not available.")))
  /\ (truthy (Req.truckId b) = false -> truthy (Req.driverId b) = false ->
      status (createShipment b w1).2 = 201).
Proof.
  intros Hs w1. subst w1.
  destruct (createShipment_created_inv b w Hs) as [shipment Hrun].
  destruct (createShipment_success_store b w _ _ _ Hrun)
    as (He & Hcl & _ & Htr & Ht & (f & Hf & Hdr) & Hd).
  split_and!.
  - intros Ht1. destruct (Ht Ht1) as (t & Hfind & Hav).
    apply (createShipment_truck_taken b _
             (Truck.set_availabilityStatus "Not Available" t)); try done.
    unfold truck_of in *. rewrite Htr, Ht1.
    rewrite find_first_update_first by done. by rewrite Hfind.
  - intros Ht1 Hd1. destruct (Hd Hd1) as (d & Hfind & Hav).
    apply (createShipment_driver_taken b _ (f d)); try done.
    + unfold driver_of in *. rewrite Hdr, Hd1.
      rewrite find_first_update_first.
      * by rewrite Hfind.
      * intros x. by rewrite (proj2 (Hf x)).
    + by rewrite (proj1 (Hf d)).
  - intros Ht1 Hd1.
    apply (createShipment_status_table b w) in Hs as (_ & Hchecks & Hschema).
    apply (createShipment_status_table b). split_and!; try done.
    unfold truck_passes, driver_passes, client_passes, client_of in *.
    rewrite Ht1, Hd1, Hcl in *. done.
Qed.

End CreateShipmentTwice.

Section StringIds.
Context `{External}.

(** X4: a [truckId] that arrives as a string is always checked, the string
    "0" included: the truck lookup is the first database call, and the
    request is refused when the lookup finds nothing. *)
Theorem createShipment_string_truckId_checked (b : Req.t) (w : World) (s : string) :
  createShipment_errors b = [] ->
  Req.truckId b = VStr s ->
  (exists rest,
     trace (createShipment b w).1
     = (trace w ++ EvFindOne Trucks (filter_of (VStr s)) :: rest)%list)
  /\ (truck_of (store w) (VStr s) = None ->
      (createShipment b w).2
      = json 400 (Failure "Invalid Truck ID. Truck does not exist.")).
Proof.
  intros He Hs.
  assert (Htruthy : truthy (Req.truckId b) = true).
  { pose proof He as Hnum. unfold createShipment_errors in Hnum.
    repeat (apply app_eq_nil in Hnum; destruct Hnum as [? Hnum]).
    assert (Hv : Req.truckId b = VUndef \/ isNumeric (Req.truckId b) = true)
      by by eapply run_optional_nil.
    rewrite Hs in *. destruct Hv as [|Hv]; [done|].
    simpl. unfold isNumeric, standard in Hv. simpl in Hv.
    by rewrite (isNumeric_not_empty _ Hv). }
  run_checked b He. rewrite Htruthy, Hs in *. simpl in *.
  rewrite Ht in *. simpl in *.
  repeat next_test; (split; [|try done]).
  all: eexists; simpl; rewrite <- ?app_assoc; reflexivity.
Qed.

End StringIds.

(** ** The other shipment handlers *)

Lemma update_first_length {A} (p : A -> bool) (f : A -> A) (l : list A) :
  length (update_first p f l) = length l.
Proof.
  induction l as [|x r IH]; simpl; [done|].
  destruct (p x); simpl; by rewrite ?IH.
Qed.





Section ShipmentHandlers.
Context `{External}.

(** X5: [updateShipment] refuses a supplied status outside the three
    values with 400, lists it, and has done nothing else: the world is as
    it was. *)
Theorem updateShipment_rejects_status (id : string) (b : Req.t) (w : World) :
  is_undefined (Req.status b) = false ->
  isIn ["pending"; "delivered"; "cancelled"] (Req.status b) = false ->
  updateShipment id b w = (w, json 400 (Errors (updateShipment_errors b)))
  /\ In {| path := "status";
           msg := "Status must be 'pending', 'delivered', or 'cancelled'." |}
       (updateShipment_errors b).
Proof.
  intros Hu Hs.
  assert (Hin : In {| path := "status";
                      msg := "Status must be 'pending', 'delivered', or 'cancelled'." |}
                  (updateShipment_errors b)).
  { unfold updateShipment_errors. rewrite !in_app_iff. do 7 right.
    apply In_run. split; [by rewrite Hu|]. eexists (_, _).
    split; [by left|]. split; [exact Hs|done]. }
  split; [|done]. unfold updateShipment.
  by destruct (updateShipment_errors b).
Qed.

Ltac unfold_queries :=
  unfold try_catch, Shipment_findOneAndUpdate, Shipment_findOneAndDelete,
    Shipment_findOne, Truck_findOne, Driver_findOne, member, bind, cast, log,
    get_store, modify_store, throw, ret, return_.

(** X6: [updateShipment] writes to the shipments only, and only when it
    answers 200: the trucks, drivers, clients and counters are untouched
    whatever the body says (a new [truckId] flips no availability), the
    number of shipments stays, and any other answer leaves the whole store
    as it was. *)
Theorem updateShipment_frame (id : string) (b : Req.t) (w : World) :
  let w' := (updateShipment id b w).1 in
  trucks (store w') = trucks (store w)
  /\ drivers (store w') = drivers (store w)
  /\ clients (store w') = clients (store w)
  /\ counters (store w') = counters (store w)
  /\ length (shipments (store w')) = length (shipments (store w))
  /\ (status (updateShipment id b w).2 <> 200 -> store w' = store w).
Proof.
  intros w'. subst w'. unfold updateShipment.
  destruct (castNumber (VStr id)) as [e|q];
    destruct (updateShipment_errors b); unfold_queries; simpl;
    try (split_and!; done).
  destruct (find_first _ (shipments (store w))) eqn:Hf; simpl;
    [|split_and!; done].
  destruct (shipmentUpdate b t); simpl; [|split_and!; done].
  split_and!; try done. apply update_first_length.
Qed.

End ShipmentHandlers.

Lemma find_first_nothing {A} (l : list A) : find_first (fun _ => false) l = None.
Proof. by induction l. Qed.

Section DeleteAndGet.
Context `{External}.

Ltac unfold_queries :=
  unfold try_catch, Shipment_findOneAndUpdate, Shipment_findOneAndDelete,
    Shipment_findOne, Truck_findOne, Driver_findOne, member, bind, cast, log,
    get_store, modify_store, throw, ret, return_.

Lemma shipment_with_cast (s : Store) (id : string) (shipment : Shipment.t) :
  shipment_with s id = Some shipment ->
  exists q, castNumber (VStr id) = inr q.
Proof.
  unfold shipment_with, filter_of.
  destruct (castNumber (VStr id)); [|eauto].
  by rewrite find_first_nothing.
Qed.


(** The answer of [getShipmentById] is read off the store alone. *)
Lemma getShipmentById_reads_store (id : string) (w1 w2 : World) :
  store w1 = store w2 ->
  (getShipmentById id w1).2 = (getShipmentById id w2).2.
Proof.
  intros Hs. unfold getShipmentById.
  destruct (castNumber (VStr id)) as [e|q]; unfold_queries; simpl; [done|].
  rewrite Hs.
  by destruct (find_first _ (shipments (store w2))).
Qed.

Lemma getShipmentById_store (id : string) (w : World) :
  store (getShipmentById id w).1 = store w.
Proof.
  unfold getShipmentById.
  destruct (castNumber (VStr id)) as [e|q]; unfold_queries; simpl; [done|].
  by destruct (find_first _ (shipments (store w))).
Qed.

(** X8: [getShipmentById] writes nothing, so asking twice gives the same
    answer. A shipment the id selects is answered 200 with the truck and
    the driver its references select, each null when it selects none; an
    id that selects nothing is answered 404 when it is a number and 500
    when it is not. *)
Theorem getShipmentById_answers (id : string) (w : World) :
  store (getShipmentById id w).1 = store w
  /\ (getShipmentById id (getShipmentById id w).1).2 = (getShipmentById id w).2
  /\ (forall shipment,
        shipment_with (store w) id = Some shipment ->
        (getShipmentById id w).2
        = json 200 (ShipmentView None shipment
                      (truck_for (store w) shipment)
                      (driver_for (store w) shipment)))
  /\ (shipment_with (store w) id = None ->
      (getShipmentById id w).2
      = match castNumber (VStr id) with
        | inr _ => json 404 (Error "Shipment not found.")
        | inl _ => internal_error
        end).
Proof.
  split; [apply getShipmentById_store|].
  split; [apply getShipmentById_reads_store, getShipmentById_store|].
  unfold shipment_with, truck_for, driver_for, filter_of, getShipmentById.
  destruct (castNumber (VStr id)) as [e|q]; unfold_queries; simpl.
  - rewrite find_first_nothing. done.
  - split; [intros shipment Hf|intros Hf]; by rewrite Hf.
Qed.

End DeleteAndGet.

(** ** The driver handlers *)

Lemma span_digits_all (l : list ascii) :
  forallb is_digit l = true -> span_digits l = (l, []).
Proof.
  induction l as [|c r IH]; simpl; [done|].
  intros [Hc Hr]%andb_true_iff. by rewrite Hc, (IH Hr).
Qed.

Lemma isInt_decimal_literal (s : string) :
  Validator.isInt s = true ->
  decimal_literal s
  = Some ((strip_sign (String.list_ascii_of_string s)).1,
          (strip_sign (String.list_ascii_of_string s)).2, None).
Proof.
  unfold Validator.isInt, decimal_literal.
  destruct (strip_sign (String.list_ascii_of_string s)) as [neg r].
  destruct r as [|c r']; [done|].
  intros Hall. change (forallb is_digit (c :: r') = true) in Hall.
  by rewrite (span_digits_all _ Hall).
Qed.

Section IntegerParameter.
Context `{External}.

Lemma isInt_cast_value (s : string) :
  Validator.isInt s = true ->
  castNumber (VStr s) = inr (Some (Int (integer_of s))).
Proof.
  intros Hint. pose proof (isInt_decimal_literal s Hint) as Hd.
  simpl. unfold Number, integer_of. rewrite Hd.
  destruct (strip_sign (String.list_ascii_of_string s)) as [neg r]. simpl.
  destruct (String.eqb s "") eqn:Hs; [|done].
  apply String.eqb_eq in Hs. by subst s.
Qed.

Lemma isInt_cast (s : string) :
  Validator.isInt s = true ->
  exists n, castNumber (VStr s) = inr (Some (Int n)).
Proof. intros Hint. eexists. by apply isInt_cast_value. Qed.

End IntegerParameter.

Lemma string_length_list (s : string) :
  length (String.list_ascii_of_string s) = String.length s.
Proof. induction s; simpl; by rewrite ?IHs. Qed.

Section DriverHandlers.
Context `{External}.
Import DriverController.

Ltac unfold_driver_queries :=
  unfold try_catch, Driver_findOneAndUpdate, Driver_findOneAndDelete,
    Driver_findOne, Truck_findOne, member, bind, cast, log,
    get_store, modify_store, throw, ret, return_.

Lemma driverId_errors_isInt (driverId : string) :
  driverId_errors driverId =
    if Validator.isInt driverId then []
    else [{| path := "driverId"; msg := "Driver ID must be a valid integer." |}].
Proof.
  unfold driverId_errors, run. simpl. unfold isInt, standard. simpl.
  by destruct (Validator.isInt driverId).
Qed.


(** X10: [getDriverById] refuses an id that is no integer literal with 400
    before any query; it answers 200 with the driver and the truck its
    [assignedTruck] selects (null when it selects none) when the driver
    exists; it writes nothing, and it never answers 404. *)
Theorem getDriverById_answers (driverId : string) (w : World) :
  store (getDriverById driverId w).1 = store w
  /\ (Validator.isInt driverId = false ->
      getDriverById driverId w =
        (w, json 400 (Errors [{| path := "driverId";
                                 msg := "Driver ID must be a valid integer." |}])))
  /\ (forall d,
        Validator.isInt driverId = true ->
        driver_of (store w) (VStr driverId) = Some d ->
        (getDriverById driverId w).2
        = json 200 (DriverView None d (assigned_truck (store w) d)))
  /\ status (getDriverById driverId w).2 <> 404.
Proof.
  unfold getDriverById, driver_of, filter_of, assigned_truck.
  rewrite driverId_errors_isInt.
  destruct (Validator.isInt driverId) eqn:Hint; [|by split_and!].
  destruct (isInt_cast _ Hint) as [n ->].
  unfold_driver_queries. simpl.
  destruct (find_first _ (drivers (store w))) as [d|] eqn:Hf; simpl.
  - split_and!; try done. by intros ? _ [= <-].
  - by split_and!.
Qed.


(** X12: [updateDriverById] accepts an [assignedTruck] of 24 characters
    only: any other supplied value, the numeric truck ids that
    [createShipment] writes among them, is refused with 400 and nothing is
    done. *)
Theorem updateDriverById_rejects_assignedTruck
    (driverId : string) (b : DriverReq.t) (w : World) :
  is_undefined (DriverReq.assignedTruck b) = false ->
  String.length (toString (DriverReq.assignedTruck b)) <> 24%nat ->
  updateDriverById driverId b w
  = (w, json 400 (Errors (updateDriverById_errors driverId b)))
  /\ In {| path := "assignedTruck";
           msg := "Assigned truck must be a valid MongoDB ObjectId." |}
       (updateDriverById_errors driverId b).
Proof.
  intros Hu Hlen.
  assert (Hin : In {| path := "assignedTruck";
                      msg := "Assigned truck must be a valid MongoDB ObjectId." |}
                  (updateDriverById_errors driverId b)).
  { unfold updateDriverById_errors. rewrite !in_app_iff. do 8 right.
    apply In_run. split; [by rewrite Hu|]. eexists (_, _).
    split; [by left|]. split; [|done]. simpl.
    unfold isMongoId, standard, Validator.isMongoId.
    rewrite string_length_list.
    apply andb_false_iff. right. by apply Nat.eqb_neq. }
  split; [|done]. unfold updateDriverById.
  by destruct (updateDriverById_errors driverId b).
Qed.

End DriverHandlers.

(** ** createDriver and the listings *)



Section CreateDriver.
Context `{External} `{DriverModel}.
Import DriverController2.

Ltac unfold_createDriver :=
  unfold createDriver, try_catch_then, Driver_findOne_licenseNumber,
    Driver_save, Counter_next, bind, ret, return_, throw, cast, log,
    get_store, modify_store.



(** X13: [createDriver] refuses a license number that a stored driver
    already has with 400 "License Exists", and has written nothing. *)
Theorem createDriver_license_exists (b : DriverReq.t) (w : World) (d : Driver.t) :
  createDriver_errors b = [] ->
  driver_licensed (store w) (DriverReq.licenseNumber b) = Some d ->
  createDriver b w = (w, answer 400 (Plain (Failure "License Exists"))).
Proof.
  intros He Hd. unfold driver_licensed in Hd.
  unfold_createDriver. rewrite He. simpl. rewrite Hd. simpl.
  by destruct w.
Qed.


End CreateDriver.

Lemma Promise_all_fulfilled_map {A B} (f : A -> B) (l : list A) :
  Promise_all (map (fun x => inr (f x)) l) = inr (map f l).
Proof. induction l as [|x r IH]; simpl; [done|]. by rewrite IH. Qed.

Lemma filter_nonempty {A} (q : A -> bool) (p : A -> bool) (l : list A) (x : A) :
  find_first p l = Some x -> q x = true -> (0 < length (List.filter q l))%nat.
Proof.
  induction l as [|y r IH]; simpl; [done|].
  destruct (p y).
  - intros [= ->] ->. simpl. lia.
  - intros Hf Hq. destruct (q y); simpl; [lia|auto].
Qed.

Lemma update_first_filter {A} (q p : A -> bool) (f : A -> A) (l : list A) (x : A) :
  find_first p l = Some x -> q x = true -> q (f x) = false ->
  length (List.filter q (update_first p f l)) = pred (length (List.filter q l)).
Proof.
  induction l as [|y r IH]; simpl; [done|].
  destruct (p y) eqn:Hp.
  - intros [= ->] Hq Hqf. simpl. by rewrite Hq, Hqf.
  - intros Hf Hq Hqf. simpl. destruct (q y); simpl; [|auto].
    rewrite (IH Hf Hq Hqf).
    pose proof (filter_nonempty q p r x Hf Hq). lia.
Qed.

Section Listings.
Context `{External}.
Import DriverController2.

(** X15: the two listings always answer 200 and write nothing:
    [getAllDrivers] one entry per driver, [getAvailableDrivers] one entry
    per driver whose status is "Available", in stored order, each with the
    truck its [assignedTruck] selects or null. A missing truck fails
    neither. *)
Theorem driver_listings (w : World) :
  getAllDrivers w
  = (w, answer 200 (DriverList (map (entry_of (store w)) (drivers (store w)))))
  /\ getAvailableDrivers w
     = (w, answer 200
             (DriverList (map (entry_of (store w)) (available_drivers (store w)))))
  /\ Forall (fun d => Driver.availabilityStatus d = "Available")
       (available_drivers (store w)).
Proof.
  unfold getAllDrivers, getAvailableDrivers, with_assignedTruck, available_drivers.
  rewrite !(Promise_all_fulfilled_map (entry_of (store w))).
  split_and!; try done.
  apply List.Forall_forall. intros d [_ Hd]%filter_In.
  by apply String.eqb_eq.
Qed.

(** X16: a successful [createShipment] with a truthy [driverId] takes one
    driver off the list of the available ones: there was one at least, and
    afterwards there is one less. Without a truthy [driverId] the list is
    what it was. *)
Theorem createShipment_takes_available_driver (b : Req.t) (w : World) :
  status (createShipment b w).2 = 201 ->
  let w' := (createShipment b w).1 in
  (truthy (Req.driverId b) = true ->
   S (length (available_drivers (store w')))
   = length (available_drivers (store w)))
  /\ (truthy (Req.driverId b) = false ->
      available_drivers (store w') = available_drivers (store w)).
Proof.
  intros Hs w'. subst w'.
  destruct (createShipment_created_inv b w Hs) as [shipment Hrun].
  destruct (createShipment_success_store b w _ _ _ Hrun)
    as (_ & _ & _ & _ & _ & (f & Hf & Hdr) & Hd).
  unfold available_drivers. rewrite Hdr. split.
  - intros Hd1. rewrite Hd1. destruct (Hd Hd1) as (d & Hfind & Hav).
    unfold driver_of in Hfind.
    assert (Hq : (fun d => String.eqb (Driver.availabilityStatus d) "Available") d
                 = true) by (simpl; by rewrite Hav).
    pose proof (filter_nonempty _ _ _ _ Hfind Hq) as Hpos.
    rewrite (update_first_filter _ _ f _ d Hfind Hq).
    + lia.
    + by rewrite (proj1 (Hf d)).
  - intros Hd1. by rewrite Hd1.
Qed.

End Listings.

(** ** The Bill hook, saved and saved again *)

(** X17: two new bills saved one after the other get consecutive ids,
    also when a document that is not new is saved in between: saving again
    uses no value of the sequence and keeps the id. *)
Theorem bill_ids_consecutive (this1 old this2 : Bill.t) (w : World) :
  Bill.isNew this1 = true ->
  Bill.isNew old = false ->
  Bill.isNew this2 = true ->
  exists saved1 saved2 w1 w2 w3,
    bill_pre_save this1 w = (w1, Val saved1)
    /\ bill_pre_save old w1 = (w2, Val old)
    /\ bill_pre_save this2 w2 = (w3, Val saved2)
    /\ Bill.billId saved2 = Bill.billId saved1 + 1
    /\ Bill.fields saved1 = Bill.fields this1
    /\ Bill.fields saved2 = Bill.fields this2.
Proof.
  intros H1 H2 H3. unfold bill_pre_save. rewrite H1, H2, H3.
  unfold catch, Counter_next, bind, ret, log, get_store, modify_store. simpl.
  eexists _, _, _, _, _. split_and!; try reflexivity.
  simpl. by rewrite lookup_insert_eq.
Qed.

(** ** Text fields of createShipment *)

Section TextFields.
Context `{External}.

(** X18: a [pickupLocation] that is missing or null is listed twice, as
    "Invalid value" and as "Pickup location is required."; an empty string
    is listed once, with the second message only; and an empty
    [shipmentName] is not listed at all, its chain being [isString] alone. *)
Theorem createShipment_text_field_entries (b : Req.t) :
  let invalid := {| path := "pickupLocation"; msg := "Invalid value" |} in
  let required :=
    {| path := "pickupLocation"; msg := "Pickup location is required." |} in
  (Req.pickupLocation b = VUndef \/ Req.pickupLocation b = VNull ->
   In invalid (createShipment_errors b) /\ In required (createShipment_errors b))
  /\ (Req.pickupLocation b = VStr "" ->
      ~ In invalid (createShipment_errors b)
      /\ In required (createShipment_errors b))
  /\ (Req.shipmentName b = VStr "" ->
      forall m, ~ In {| path := "shipmentName"; msg := m |} (createShipment_errors b)).
Proof.
  intros invalid required. subst invalid required.
  assert (Hpick : forall e,
    In e (run false "pickupLocation"
            [(isString, Invalid_value); (notEmpty, "Pickup location is required.")]
            (Req.pickupLocation b)) ->
    In e (createShipment_errors b)).
  { intros e He. unfold createShipment_errors. rewrite !in_app_iff. auto. }
  assert (Hother : forall e,
    In e (createShipment_errors b) ->
    path e = "pickupLocation" ->
    In e (run false "pickupLocation"
            [(isString, Invalid_value); (notEmpty, "Pickup location is required.")]
            (Req.pickupLocation b))).
  { intros e He Hp. unfold createShipment_errors in He.
    rewrite !in_app_iff in He.
    repeat (destruct He as [He|He]); try done;
      apply In_run in He as (_ & c & _ & _ & ->); simpl in Hp; done. }
  split_and!.
  - intros [Hv|Hv]; split; apply Hpick; rewrite Hv; simpl; auto.
  - intros Hv. split.
    + intros Hin%Hother; [|done]. rewrite Hv in Hin. simpl in Hin.
      by destruct Hin as [|[]].
    + apply Hpick. rewrite Hv. simpl. auto.
  - intros Hv m Hin. unfold createShipment_errors in Hin.
    rewrite !in_app_iff in Hin.
    repeat (destruct Hin as [Hin|Hin]);
      apply In_run in Hin as (_ & c & Hc & Hf & Heq); try done.
    simpl in Hc. destruct Hc as [<-|[]]. rewrite Hv in Hf. done.
Qed.

End TextFields.

(** ** Updates that find their target *)

Lemma update_first_insert {A} (p : A -> bool) (y : A) (l : list A) (x : A) :
  find_first p l = Some x ->
  exists i, first_at p l i x /\ update_first p (fun _ => y) l = <[i := y]> l.
Proof.
  unfold first_at.
  induction l as [|a r IH]; simpl; [done|].
  destruct (p a) eqn:Hp.
  - intros [= ->]. exists 0%nat. split_and!; try done. intros j z Hj. lia.
  - intros (i & (Hi & Hx & Hbefore) & Hupd)%IH. exists (S i).
    split_and!; try done.
    + intros [|j] z Hj; simpl; [by intros [= <-]|].
      apply Hbefore. lia.
    + simpl. by rewrite Hupd.
Qed.

Lemma find_first_replaced {A} (p : A -> bool) (y : A) (l : list A) (x : A) :
  find_first p l = Some x -> p y = true ->
  find_first p (update_first p (fun _ => y) l) = Some y.
Proof.
  intros Hf Hy. induction l as [|a r IH]; simpl in *; [done|].
  destruct (p a) eqn:Hp; simpl.
  - by rewrite Hy.
  - rewrite Hp. by apply IH.
Qed.

Section FoundUpdates.
Context `{External}.
Import DriverController.

Ltac unfold_updates :=
  unfold try_catch, Shipment_findOneAndUpdate, Driver_findOneAndUpdate,
    Truck_findOne, Driver_findOne, member, bind, cast, log,
    get_store, modify_store, throw, ret, return_.

(** X19: [updateShipment] on a shipment the id selects. When the update is
    accepted the answer is 200 with the updated document and with the truck
    and the driver that its references select; in the store the updated
    document stands where the first shipment the id selects stood, and
    every other shipment is as it was; when the update keeps the id,
    the id selects the updated document afterwards. When the update is
    rejected the answer is 500 and the store is as it was. *)
Theorem updateShipment_found
    (id : string) (b : Req.t) (w : World) (shipment : Shipment.t) :
  updateShipment_errors b = [] ->
  shipment_with (store w) id = Some shipment ->
  let w' := (updateShipment id b w).1 in
  let r := (updateShipment id b w).2 in
  (forall updated,
     shipmentUpdate b shipment = Some updated ->
     r = json 200 (ShipmentView (Some "Shipment updated successfully.") updated
                     (truck_for (store w) updated)
                     (driver_for (store w) updated))
     /\ (exists i,
           first_at
             (fun d => id_matches (filter_of (VStr id)) (Shipment.shipmentId d))
             (shipments (store w)) i shipment
           /\ shipments (store w') = <[i := updated]> (shipments (store w)))
     /\ (Shipment.shipmentId updated = Shipment.shipmentId shipment ->
         shipment_with (store w') id = Some updated))
  /\ (shipmentUpdate b shipment = None ->
      r = internal_error /\ store w' = store w).
Proof.
  intros He Hf w' r. subst w' r.
  destruct (shipment_with_cast _ _ _ Hf) as [q Hq].
  unfold shipment_with, truck_for, driver_for, filter_of in *.
  unfold updateShipment. rewrite He, Hq in *.
  unfold_updates. simpl. rewrite Hf.
  destruct (shipmentUpdate b shipment) as [updated|]; simpl.
  - split; [|done]. intros ? [= <-]. split_and!; [done| |].
    + by apply update_first_insert.
    + intros Hid. apply (find_first_replaced _ _ _ shipment); [done|].
      rewrite Hid. by apply find_first_Some in Hf.
  - split; [done|]. intros _. split; [done|]. by destruct w as [[]].
Qed.

Lemma updateDriverById_errors_isInt (driverId : string) (b : DriverReq.t) :
  updateDriverById_errors driverId b = [] -> Validator.isInt driverId = true.
Proof.
  unfold updateDriverById_errors. intros [Hid _]%app_eq_nil.
  rewrite driverId_errors_isInt in Hid. by destruct (Validator.isInt driverId).
Qed.

(** X20: [updateDriverById] on a driver the id selects. When the update is
    accepted the answer is 200 with the updated driver and the truck its
    [assignedTruck] selects; in the store the updated driver stands where
    the first driver the id selects stood and every other driver is as it
    was. The trucks are not written, whatever [assignedTruck] or status the
    body sets. When the update is rejected the answer is 500 and the store
    is as it was. *)
Theorem updateDriverById_found
    (driverId : string) (b : DriverReq.t) (w : World) (d : Driver.t) :
  updateDriverById_errors driverId b = [] ->
  driver_of (store w) (VStr driverId) = Some d ->
  let w' := (updateDriverById driverId b w).1 in
  let r := (updateDriverById driverId b w).2 in
  trucks (store w') = trucks (store w)
  /\ (forall updated,
        driverUpdate b d = Some updated ->
        r = json 200 (DriverView (Some "Driver updated successfully.") updated
                        (assigned_truck (store w) updated))
        /\ (exists i,
              first_at (fun x => Driver.driverId x =? integer_of driverId)
                (drivers (store w)) i d
              /\ drivers (store w') = <[i := updated]> (drivers (store w))))
  /\ (driverUpdate b d = None ->
      r = internal_error /\ store w' = store w).
Proof.
  intros He Hf w' r. subst w' r.
  pose proof (isInt_cast_value _ (updateDriverById_errors_isInt _ _ He)) as Hq.
  unfold driver_of, assigned_truck, filter_of in *.
  unfold updateDriverById. rewrite He, Hq in *.
  unfold_updates. simpl in *. rewrite Hf.
  destruct (driverUpdate b d) as [updated|]; simpl.
  - split_and!; try done. intros ? [= <-]. split; [done|].
    by apply update_first_insert.
  - by split_and!.
Qed.

End FoundUpdates.

(** * The further statements on the reference store *)

Import Reference2 Samples.

Lemma createShipment_replay_witness :
  let b := with_refs (VNum 1) (VNum 1) (VNum 1) body0 in
  let w1 := (createShipment b world0).1 in
  status (createShipment b world0).2 = 201
  /\ createShipment b w1
     = (after w1 [EvFindOne Trucks (Some (Int 1))],
        json 400 (Failure "Truck is not available.")).
Proof.
  split; [vm_compute; reflexivity|].
  apply (createShipment_replay (H := ref)
           (with_refs (VNum 1) (VNum 1) (VNum 1) body0) world0);
    vm_compute; reflexivity.
Defined.

Lemma createShipment_string_truckId_checked_witness :
  let b := with_refs (VNum 1) (VStr "0") VUndef body0 in
  createShipment_errors b = []
  /\ (exists rest,
        trace (createShipment b world0).1
        = (trace world0 ++ EvFindOne Trucks (filter_of (VStr "0")) :: rest)%list)
  /\ (truck_of (store world0) (VStr "0") = None ->
      (createShipment b world0).2
      = json 400 (Failure "Invalid Truck ID. Truck does not exist.")).
Proof.
  split; [vm_compute; reflexivity|].
  apply (createShipment_string_truckId_checked (H := ref)
           (with_refs (VNum 1) (VStr "0") VUndef body0) world0 "0");
    vm_compute; reflexivity.
Defined.

Lemma updateShipment_rejects_status_witness :
  let b := with_status (VStr "shipped") VUndef no_fields in
  updateShipment "1" b world_listed
  = (world_listed, json 400 (Errors (updateShipment_errors b)))
  /\ In {| path := "status";
           msg := "Status must be 'pending', 'delivered', or 'cancelled'." |}
       (updateShipment_errors b).
Proof.
  apply (updateShipment_rejects_status (H := ref) "1"
           (with_status (VStr "shipped") VUndef no_fields) world_listed);
    vm_compute; reflexivity.
Defined.


Lemma getDriverById_answers_witness :
  (DriverController.getDriverById "01" world0).2
  = json 200 (DriverView None driver1 None)
  /\ DriverController.getDriverById "1.5" world0
     = (world0, json 400 (Errors [{| path := "driverId";
                                    msg := "Driver ID must be a valid integer." |}])).
Proof.
  destruct (getDriverById_answers (H := ref) "01" world0) as (_ & _ & H200 & _).
  destruct (getDriverById_answers (H := ref) "1.5" world0) as (_ & H400 & _).
  split.
  - apply (H200 driver1); reflexivity.
  - apply H400. reflexivity.
Defined.


Lemma updateDriverById_rejects_assignedTruck_witness :
  DriverController.updateDriverById "01" driver_experience_update world0
  = (world0,
     json 400 (Errors [{| path := "assignedTruck";
                          msg := "Assigned truck must be a valid MongoDB ObjectId." |}]))
  /\ In {| path := "assignedTruck";
           msg := "Assigned truck must be a valid MongoDB ObjectId." |}
       (DriverController.updateDriverById_errors "01" driver_experience_update).
Proof.
  apply (updateDriverById_rejects_assignedTruck (H := ref) "01"
           driver_experience_update world0);
    vm_compute; (reflexivity || discriminate).
Defined.

Lemma createDriver_license_exists_witness :
  DriverController2.createDriver driver_body world_driver
  = (world_driver, answer 400 (Plain (Failure "License Exists"))).
Proof.
  eapply (createDriver_license_exists (H := ref) (H0 := ref_driver)
            driver_body world_driver);
    vm_compute; reflexivity.
Defined.


Lemma createShipment_takes_available_driver_witness :
  let b := with_refs (VNum 1) VUndef (VNum 3) body0 in
  length (available_drivers (store world0)) = 2%nat
  /\ length (available_drivers (store (createShipment b world0).1)) = 1%nat.
Proof.
  split; [reflexivity|].
  destruct (createShipment_takes_available_driver (H := ref)
              (with_refs (VNum 1) VUndef (VNum 3) body0) world0)
    as [Htaken _]; [vm_compute; reflexivity|].
  specialize (Htaken ltac:(reflexivity)).
  exact (Nat.succ_inj _ _ Htaken).
Defined.

Lemma bill_ids_consecutive_witness :
  exists saved1 saved2 w1 w2 w3,
    bill_pre_save bill0 world0 = (w1, Val saved1)
    /\ bill_pre_save bill_saved w1 = (w2, Val bill_saved)
    /\ bill_pre_save bill0 w2 = (w3, Val saved2)
    /\ Bill.billId saved2 = Bill.billId saved1 + 1
    /\ Bill.fields saved1 = Bill.fields bill0
    /\ Bill.fields saved2 = Bill.fields bill0.
Proof. apply (bill_ids_consecutive bill0 bill_saved bill0 world0); reflexivity. Defined.

Lemma updateShipment_found_witness :
  (updateShipment "2" status_update world_orphan).2
  = json 200 (ShipmentView (Some "Shipment updated successfully.")
                (shipment_delivered 2 9) (Some truck1) None)
  /\ shipments (store (updateShipment "2" status_update world_orphan).1)
     = [shipment_of_client 1 1; shipment_delivered 2 9]
  /\ (updateShipment "2" truck_text_update world_orphan).2 = internal_error
  /\ store (updateShipment "2" truck_text_update world_orphan).1
     = store world_orphan.
Proof.
  destruct (updateShipment_found (H := ref) "2" status_update world_orphan
              (shipment_of_client 2 9)) as [Hset _]; [reflexivity..|].
  destruct (Hset (shipment_delivered 2 9)) as (Hr & _); [reflexivity|].
  destruct (updateShipment_found (H := ref) "2" truck_text_update world_orphan
              (shipment_of_client 2 9)) as [_ Hrejected]; [reflexivity..|].
  destruct Hrejected as [Hr' Hs']; [reflexivity|].
  split_and!; [exact Hr|reflexivity|exact Hr'|exact Hs'].
Defined.

Lemma updateDriverById_found_witness :
  (DriverController.updateDriverById "03" driver_status_update world0).2
  = json 200 (DriverView (Some "Driver updated successfully.") driver3_updated None)
  /\ drivers (store (DriverController.updateDriverById "03" driver_status_update
                       world0).1)
     = [driver1; driver2; driver3_updated]
  /\ trucks (store (DriverController.updateDriverById "03" driver_status_update
                      world0).1)
     = [truck1; truck2]
  /\ (DriverController.updateDriverById "3" driver_objectid_update world0).2
     = internal_error
  /\ store (DriverController.updateDriverById "3" driver_objectid_update world0).1
     = store world0.
Proof.
  destruct (updateDriverById_found (H := ref) "03" driver_status_update world0
              driver3) as (Ht & Hset & _); [reflexivity..|].
  destruct (Hset driver3_updated) as (Hr & _); [reflexivity|].
  destruct (updateDriverById_found (H := ref) "3" driver_objectid_update world0
              driver3) as (_ & _ & Hrejected); [reflexivity..|].
  destruct Hrejected as [Hr' Hs']; [reflexivity|].
  split_and!; [exact Hr|reflexivity|exact Ht|exact Hr'|exact Hs'].
Defined.
